(** * SmartWater Pro: the ESP32 watering firmware (water_suplly.ino)

    A shallow embedding of the firmware's configuration codec, pump control,
    command interpreter and main loop, and the properties of its irrigation
    decision logic.

    The sketch keeps its whole state in global variables and talks to the
    hardware through Arduino calls.  Here the globals are the fields of
    [State], every function of the sketch is a computation in the monad [M]
    (state passing, an output trace of hardware and BLE calls, and a fault
    outcome), and the hardware inputs are:
    - the ADC, a function [adc pin t] of the pin and of the time;
    - the millisecond clock, the field [clock] of the state, which only
      [delay] advances (the time the processor spends computing is taken
      to be zero). *)

From stdpp Require Import base gmap strings list.
From Stdlib Require Import ZArith Lia DecimalString DecimalN.

Local Open Scope Z_scope.

(** ** Fixed-width integers

    [uint8_t], [uint16_t], [uint32_t] and [int] are integers of [Z] with the
    wrap-around of a conversion written out. *)

Definition u8 (z : Z) : Z := z mod 2 ^ 8.
Definition u16 (z : Z) : Z := z mod 2 ^ 16.
Definition u32 (z : Z) : Z := z mod 2 ^ 32.
Definition i32 (z : Z) : Z := (z + 2 ^ 31) mod 2 ^ 32 - 2 ^ 31.

Arguments u8 z : simpl never.
Arguments u16 z : simpl never.
Arguments u32 z : simpl never.
Arguments i32 z : simpl never.

(** [cond ? 1 : 0] *)
Definition b2z (b : bool) : Z := if b then 1 else 0.
(** conversion of an integer to [bool] *)
Definition z2b (z : Z) : bool := negb (z =? 0).

(** ** Pins and modes *)

Definition SOIL_PIN : Z := 34.
Definition LEVEL_PIN : Z := 35.
Definition RELAY_PIN : Z := 26.
Definition PUMP_PWM_PIN : Z := 25.

Definition RELAY_MODE : bool := true.
Definition PWM_MODE : bool := false.

(** ** Configuration *)

Record Config := mkConfig {
  threshold : Z;        (* uint16_t *)
  flowPct : Z;          (* uint8_t *)
  startHour : Z;        (* uint8_t *)
  startMin : Z;         (* uint8_t *)
  durationSec : Z;      (* uint16_t *)
  scheduleOn : bool;
  relayActiveLow : bool
}.

(** The member initialisers of [struct Config]. *)
Definition defaultConfig : Config :=
  {| threshold := 2200; flowPct := 100; startHour := 7; startMin := 0;
     durationSec := 30; scheduleOn := false; relayActiveLow := true |}.

(** A configuration whose fields fit their declared widths. *)
Definition representable (c : Config) : Prop :=
  0 <= threshold c < 2 ^ 16 /\ 0 <= flowPct c < 2 ^ 8 /\
  0 <= startHour c < 2 ^ 8 /\ 0 <= startMin c < 2 ^ 8 /\
  0 <= durationSec c < 2 ^ 16.

Definition set_threshold (v : Z) (c : Config) : Config :=
  {| threshold := v; flowPct := flowPct c; startHour := startHour c;
     startMin := startMin c; durationSec := durationSec c;
     scheduleOn := scheduleOn c; relayActiveLow := relayActiveLow c |}.

(** ** The Preferences store (namespace "watering") *)

Inductive PrefVal :=
| PUShort (v : Z)
| PUChar (v : Z)
| PBool (b : bool).

Definition getUShort (p : gmap string PrefVal) (k : string) (dflt : Z) : Z :=
  match p !! k with Some (PUShort v) => v | _ => dflt end.
Definition getUChar (p : gmap string PrefVal) (k : string) (dflt : Z) : Z :=
  match p !! k with Some (PUChar v) => v | _ => dflt end.
Definition getBool (p : gmap string PrefVal) (k : string) (dflt : bool) : bool :=
  match p !! k with Some (PBool b) => b | _ => dflt end.

(** [saveConfig], on the store. *)
Definition savePrefs (c : Config) (p : gmap string PrefVal) : gmap string PrefVal :=
  <["inv" := PBool (relayActiveLow c)]>
  (<["sch" := PBool (scheduleOn c)]>
  (<["dur" := PUShort (u16 (durationSec c))]>
  (<["sm" := PUChar (u8 (startMin c))]>
  (<["sh" := PUChar (u8 (startHour c))]>
  (<["fp" := PUChar (u8 (flowPct c))]>
  (<["th" := PUShort (u16 (threshold c))]> p)))))).

(** [loadConfig], on the store: a missing key keeps the current value. *)
Definition loadPrefs (p : gmap string PrefVal) (c : Config) : Config :=
  {| threshold := getUShort p "th" (threshold c);
     flowPct := getUChar p "fp" (flowPct c);
     startHour := getUChar p "sh" (startHour c);
     startMin := getUChar p "sm" (startMin c);
     durationSec := getUShort p "dur" (durationSec c);
     scheduleOn := getBool p "sch" (scheduleOn c);
     relayActiveLow := getBool p "inv" (relayActiveLow c) |}.

(** ** The 10-byte configuration record *)

(** [packConfig]: the bytes of the global [cfg], passed here as [c]. *)
Definition packConfig (c : Config) : list Z :=
  [ u8 (Z.land (threshold c) 255);
    u8 (Z.shiftr (threshold c) 8);
    u8 (flowPct c);
    u8 (startHour c);
    u8 (startMin c);
    u8 (Z.land (durationSec c) 255);
    u8 (Z.shiftr (durationSec c) 8);
    b2z (scheduleOn c);
    b2z (relayActiveLow c);
    170 ].

(** [data[i]] for a [const uint8_t*]: a byte of the payload. *)
Definition byte_at (data : list Z) (i : nat) : Z := u8 (nth i data 0).

(** The field assignments of [unpackConfig]. *)
Definition decodeFields (data : list Z) : Config :=
  {| threshold := u16 (Z.lor (byte_at data 0) (Z.shiftl (byte_at data 1) 8));
     flowPct := byte_at data 2;
     startHour := byte_at data 3;
     startMin := byte_at data 4;
     durationSec := u16 (Z.lor (byte_at data 5) (Z.shiftl (byte_at data 6) 8));
     scheduleOn := z2b (byte_at data 7);
     relayActiveLow := z2b (byte_at data 8) |}.

(** ** Output trace *)

Inductive Chr := SoilChr | LevelChr | StateChr | ConfigChr | LogChr.

Inductive Payload :=
| Bytes (l : list Z)
| Text (s : string).

Inductive Event :=
| EDigitalWrite (pin : Z) (high : bool)
| ELedcWrite (channel duty : Z)
| ESetValue (c : Chr) (v : Payload)
| ENotify (c : Chr)
| ESerial (line : string)
| EAdvertise.

(** ** Global state *)

Record State := mkState {
  cfg : Config;
  nvs : gmap string PrefVal;
  pumpRunning : bool;
  clientConnected : bool;
  lastSoilTime : Z;     (* uint32_t *)
  lastLevelTime : Z;    (* uint32_t *)
  secondsToday : Z;     (* uint32_t *)
  lastSecond : Z;       (* uint32_t *)
  wateredToday : bool;
  clock : Z             (* milliseconds since boot *)
}.

Definition set_cfg (c : Config) (s : State) : State :=
  mkState c (nvs s) (pumpRunning s) (clientConnected s) (lastSoilTime s)
    (lastLevelTime s) (secondsToday s) (lastSecond s) (wateredToday s) (clock s).
Definition set_nvs (p : gmap string PrefVal) (s : State) : State :=
  mkState (cfg s) p (pumpRunning s) (clientConnected s) (lastSoilTime s)
    (lastLevelTime s) (secondsToday s) (lastSecond s) (wateredToday s) (clock s).
Definition set_pumpRunning (b : bool) (s : State) : State :=
  mkState (cfg s) (nvs s) b (clientConnected s) (lastSoilTime s)
    (lastLevelTime s) (secondsToday s) (lastSecond s) (wateredToday s) (clock s).
Definition set_clientConnected (b : bool) (s : State) : State :=
  mkState (cfg s) (nvs s) (pumpRunning s) b (lastSoilTime s)
    (lastLevelTime s) (secondsToday s) (lastSecond s) (wateredToday s) (clock s).
Definition set_lastSoilTime (t : Z) (s : State) : State :=
  mkState (cfg s) (nvs s) (pumpRunning s) (clientConnected s) t
    (lastLevelTime s) (secondsToday s) (lastSecond s) (wateredToday s) (clock s).
Definition set_lastLevelTime (t : Z) (s : State) : State :=
  mkState (cfg s) (nvs s) (pumpRunning s) (clientConnected s) (lastSoilTime s)
    t (secondsToday s) (lastSecond s) (wateredToday s) (clock s).
Definition set_secondsToday (t : Z) (s : State) : State :=
  mkState (cfg s) (nvs s) (pumpRunning s) (clientConnected s) (lastSoilTime s)
    (lastLevelTime s) t (lastSecond s) (wateredToday s) (clock s).
Definition set_lastSecond (t : Z) (s : State) : State :=
  mkState (cfg s) (nvs s) (pumpRunning s) (clientConnected s) (lastSoilTime s)
    (lastLevelTime s) (secondsToday s) t (wateredToday s) (clock s).
Definition set_wateredToday (b : bool) (s : State) : State :=
  mkState (cfg s) (nvs s) (pumpRunning s) (clientConnected s) (lastSoilTime s)
    (lastLevelTime s) (secondsToday s) (lastSecond s) b (clock s).
Definition set_clock (t : Z) (s : State) : State :=
  mkState (cfg s) (nvs s) (pumpRunning s) (clientConnected s) (lastSoilTime s)
    (lastLevelTime s) (secondsToday s) (lastSecond s) (wateredToday s) t.

(** The globals as their initialisers leave them, at time [0]. *)
Definition bootState : State :=
  mkState defaultConfig ∅ false false 0 0 0 0 false 0.

(** ** The monad of the sketch *)

Inductive Fault := DivisionByZero | OutOfFuel.

Inductive Outcome (A : Type) :=
| Done (a : A) (s : State) (out : list Event)
| Stuck (f : Fault).
Arguments Done {A} a s out.
Arguments Stuck {A} f.

Definition M (A : Type) : Type := State -> Outcome A.

Definition ret {A : Type} (a : A) : M A := fun s => Done a s [].

Definition bind {A B : Type} (m : M A) (k : A -> M B) : M B := fun s =>
  match m s with
  | Done a s1 o1 =>
      match k a s1 with
      | Done b s2 o2 => Done b s2 (o1 ++ o2)
      | Stuck f => Stuck f
      end
  | Stuck f => Stuck f
  end.

Declare Scope sketch_scope.
Delimit Scope sketch_scope with sketch.
Bind Scope sketch_scope with M.
Notation "x <- m ;; k" := (bind m (fun x => k))
  (at level 100, m at next level, k at level 200, right associativity) : sketch_scope.
Notation "m ;; k" := (bind m (fun _ => k))
  (at level 100, k at level 200, right associativity) : sketch_scope.
Local Open Scope sketch_scope.

Definition gets {A : Type} (f : State -> A) : M A := fun s => Done (f s) s [].
Definition modify (f : State -> State) : M unit := fun s => Done tt (f s) [].
Definition emit (e : Event) : M unit := fun s => Done tt s [e].
Definition stuck {A : Type} (f : Fault) : M A := fun _ => Stuck f.

(** The state and the trace of a finished computation. *)
Definition stateOf {A : Type} (o : Outcome A) (dflt : State) : State :=
  match o with Done _ s _ => s | Stuck _ => dflt end.
Definition traceOf {A : Type} (o : Outcome A) : list Event :=
  match o with Done _ _ t => t | Stuck _ => [] end.

(** ** Arduino helpers *)

Definition lowByte (w : Z) : Z := u8 (Z.land w 255).
Definition highByte (w : Z) : Z := u8 (Z.shiftr w 8).

(** [map] of the ESP32 core, on [long]. *)
Definition map_ (x in_min in_max out_min out_max : Z) : Z :=
  let run := in_max - in_min in
  if run =? 0 then -1
  else Z.quot ((x - in_min) * (out_max - out_min)) run + out_min.

(** [String(value.c_str())]: the text up to the first NUL. *)
Fixpoint c_str (s : string) : string :=
  match s with
  | EmptyString => EmptyString
  | String c s' => if Ascii.eqb c Ascii.zero then EmptyString else String c (c_str s')
  end.

(** [String::startsWith] *)
Definition startsWith (s p : string) : bool := String.prefix p s.

(** [String::substring(from)] *)
Definition substringFrom (from : nat) (s : string) : string :=
  String.substring from (String.length s - from) s.

(** [String::toInt] is [atol]: blanks, a sign, then decimal digits, the
    value clamped to the range of a 32-bit [long]. *)
Definition isspace (c : Ascii.ascii) : bool :=
  let n := Ascii.nat_of_ascii c in
  ((n =? 32) || ((9 <=? n) && (n <=? 13)))%nat.

Definition digit_of (c : Ascii.ascii) : option Z :=
  let n := Z.of_nat (Ascii.nat_of_ascii c) in
  if (48 <=? n) && (n <=? 57) then Some (n - 48) else None.

Fixpoint atol_digits (s : string) (acc : Z) : Z :=
  match s with
  | EmptyString => acc
  | String c s' =>
      match digit_of c with
      | Some d => atol_digits s' (10 * acc + d)
      | None => acc
      end
  end.

Fixpoint atol_skip (s : string) : string :=
  match s with
  | String c s' => if isspace c then atol_skip s' else s
  | EmptyString => s
  end.

Definition clamp_long (z : Z) : Z := Z.max (- 2 ^ 31) (Z.min (2 ^ 31 - 1) z).

Definition toInt (s : string) : Z :=
  match atol_skip s with
  | String c s' =>
      if (Ascii.nat_of_ascii c =? 45)%nat then clamp_long (- atol_digits s' 0)
      else if (Ascii.nat_of_ascii c =? 43)%nat then clamp_long (atol_digits s' 0)
      else clamp_long (atol_digits (String c s') 0)
  | EmptyString => 0
  end.

(** [String(...) + n] for an unsigned number: its decimal digits. *)
Definition decimal (n : Z) : string :=
  NilZero.string_of_uint (N.to_uint (Z.to_N n)).

(** ** Reading the output trace *)

Fixpoint countEvents (p : Event -> bool) (tr : list Event) : nat :=
  match tr with
  | [] => O
  | e :: tr' => if p e then S (countEvents p tr') else countEvents p tr'
  end.

(** Every call of [setPump] writes the pump-state characteristic once, and
    nothing else writes it. *)
Definition isPumpCall (e : Event) : bool :=
  match e with ESetValue StateChr _ => true | _ => false end.

(** A [setPump(true)]: the first byte of the pump state is 1. *)
Definition isPumpOn (e : Event) : bool :=
  match e with ESetValue StateChr (Bytes (1 :: _)) => true | _ => false end.

Definition isSerial (line : string) (e : Event) : bool :=
  match e with ESerial l => String.eqb l line | _ => false end.

Definition pumpCalls (tr : list Event) : nat := countEvents isPumpCall tr.
Definition runsStarted (tr : list Event) : nat := countEvents isPumpOn tr.
Definition logged (line : string) (tr : list Event) : bool :=
  negb (Nat.eqb (countEvents (isSerial line) tr) 0).

(** The level that switches the relay off under the polarity of [c]. *)
Definition relayOffLevel (c : Config) : bool := relayActiveLow c.

(** ** The sketch *)

Inductive RunKind := AutoRun | SchedRun.

Section Firmware.

(** The raw conversion result of the ADC on a pin at a time. *)
Variable adc : Z -> Z -> Z.

Definition millis : M Z := gets (fun s => u32 (clock s)).

Definition delay (ms : Z) : M unit :=
  modify (fun s => set_clock (clock s + u32 ms) s).

Definition analogRead (pin : Z) : M Z :=
  gets (fun s => u16 (adc pin (clock s))).

Definition saveConfig : M unit :=
  modify (fun s => set_nvs (savePrefs (cfg s) (nvs s)) s).

Definition loadConfig : M unit :=
  modify (fun s => set_cfg (loadPrefs (nvs s) (cfg s)) s).

Definition unpackConfig (data : list Z) : M unit :=
  if Z.of_nat (length data) <? 10 then ret tt
  else
    modify (set_cfg (decodeFields data));;
    saveConfig.

(** [pLogChr] is set once [setup] has run. *)
Definition log (msg : string) : M unit :=
  emit (ESerial msg);;
  connected <- gets clientConnected;;
  if connected then
    emit (ESetValue LogChr (Text msg));;
    emit (ENotify LogChr)
  else ret tt.

Definition setPump (on : bool) : M unit :=
  modify (set_pumpRunning on);;
  c <- gets cfg;;
  (if RELAY_MODE
   then emit (EDigitalWrite RELAY_PIN (if relayActiveLow c then negb on else on))
   else ret tt);;
  (if PWM_MODE
   then emit (ELedcWrite 0 (u8 (if on then map_ (flowPct c) 0 100 0 255 else 0)))
   else ret tt);;
  emit (ESetValue StateChr (Bytes [b2z on; flowPct c]));;
  emit (ENotify StateChr);;
  log (if on then "Pump ON" else "Pump OFF").

(** *** A watering run of the main loop

    [setPump(true); delay(cfg.durationSec * 1000); setPump(false); ...]:
    the part before the delay, and the part after it. *)

Definition runBegin : M unit := setPump true.

Definition runEnd (k : RunKind) : M unit :=
  setPump false;;
  match k with
  | AutoRun => log "Auto watering completed"
  | SchedRun =>
      modify (set_wateredToday true);;
      log "Scheduled watering done"
  end.

Definition runDelay : M unit :=
  c <- gets cfg;;
  delay (durationSec c * 1000).

Definition timedRun (k : RunKind) : M unit :=
  runBegin;; runDelay;; runEnd k.

(** *** Command interpreter *)

Definition udiv (a b : Z) : M Z :=
  if b =? 0 then stuck DivisionByZero else ret (a / b).

(** [while (millis() - t0 < 10000) { sum += analogRead(SOIL_PIN); n++; delay(100); }] *)
Fixpoint sampleLoop (fuel : nat) (t0 sum n : Z) : M (Z * Z) :=
  now <- millis;;
  if u32 (now - t0) <? 10000 then
    match fuel with
    | O => stuck OutOfFuel
    | S fuel' =>
        r <- analogRead SOIL_PIN;;
        delay 100;;
        sampleLoop fuel' t0 (u32 (sum + r)) (i32 (n + 1))
    end
  else ret (sum, n).

(** The statements after the sampling loop. *)
Definition autotuneFinish (sum n : Z) : M unit :=
  if 0 <? n then
    q <- udiv sum (u32 n);;
    let avg := u16 q in
    modify (fun s => set_cfg (set_threshold (u16 (avg + 200)) (cfg s)) s);;
    saveConfig;;
    c <- gets cfg;;
    log ("Autotune done → new threshold = " +:+ decimal (threshold c));;
    emit (ESetValue ConfigChr (Bytes (packConfig c)));;
    emit (ENotify ConfigChr)
  else ret tt.

Definition autotune (fuel : nat) : M unit :=
  log "Autotune started (10 sec dry reading)...";;
  delay 2000;;
  t0 <- millis;;
  r <- sampleLoop fuel t0 0 0;;
  autotuneFinish (fst r) (snd r).

Definition water (cmd : string) : M unit :=
  c <- gets cfg;;
  let sec0 := toInt (substringFrom 6 cmd) in
  let sec := if sec0 <=? 0 then durationSec c else sec0 in
  setPump true;;
  delay (i32 (sec * 1000));;
  setPump false;;
  log "Manual watering finished".

Definition CmdCallbacks_onWrite (fuel : nat) (value : string) : M unit :=
  let cmd := c_str value in
  if String.eqb cmd "ON" then setPump true
  else if String.eqb cmd "OFF" then setPump false
  else if String.eqb cmd "TOGGLE" then
    running <- gets pumpRunning;;
    setPump (negb running)
  else if startsWith cmd "WATER:" then water cmd
  else if startsWith cmd "AUTOTUNE" then autotune fuel
  else log ("Unknown command: " +:+ cmd).

Definition ServerCallbacks_onConnect : M unit :=
  modify (set_clientConnected true);;
  log "BLE Client connected".

Definition ServerCallbacks_onDisconnect : M unit :=
  modify (set_clientConnected false);;
  log "BLE Client disconnected - Restarting advertising";;
  emit EAdvertise.

Definition ConfigCallbacks_onRead : M unit :=
  c <- gets cfg;;
  emit (ESetValue ConfigChr (Bytes (packConfig c))).

Definition ConfigCallbacks_onWrite (v : list Z) : M unit :=
  unpackConfig v;;
  log "Config updated from app".

(** *** The main loop *)

(** One-second ticker. *)
Definition ticker : M unit :=
  now <- millis;;
  ls <- gets lastSecond;;
  if 1000 <=? u32 (now - ls) then
    now' <- millis;;
    modify (set_lastSecond now');;
    modify (fun s => set_secondsToday (u32 (secondsToday s + 1) mod 86400) s);;
    sec <- gets secondsToday;;
    if sec <? 10 then modify (set_wateredToday false) else ret tt
  else ret tt.

(** The condition of the automatic watering. *)
Definition thresholdFires (c : Config) (soil : Z) (running : bool) : bool :=
  negb (scheduleOn c) && (threshold c <? soil) && negb running.

(** Soil moisture reading, notification and automatic watering. *)
Definition soilBlock : M unit :=
  now <- millis;;
  lt <- gets lastSoilTime;;
  if 1000 <? u32 (now - lt) then
    soil <- analogRead SOIL_PIN;;
    emit (ESetValue SoilChr (Bytes [lowByte soil; highByte soil]));;
    emit (ENotify SoilChr);;
    now' <- millis;;
    modify (set_lastSoilTime now');;
    c <- gets cfg;;
    running <- gets pumpRunning;;
    if thresholdFires c soil running then timedRun AutoRun else ret tt
  else ret tt.

(** Tank level. *)
Definition levelBlock : M unit :=
  now <- millis;;
  lt <- gets lastLevelTime;;
  if 2000 <? u32 (now - lt) then
    level <- analogRead LEVEL_PIN;;
    emit (ESetValue LevelChr (Bytes [lowByte level; highByte level]));;
    emit (ENotify LevelChr);;
    now' <- millis;;
    modify (set_lastLevelTime now')
  else ret tt.

(** The start of the schedule window, [nowSec] in the sketch. *)
Definition windowStart (c : Config) : Z :=
  u32 (startHour c * 3600 + startMin c * 60).

(** The condition of the scheduled watering. *)
Definition scheduleFires (c : Config) (watered : bool) (sec : Z) : bool :=
  scheduleOn c && negb watered && (windowStart c <=? sec) &&
  (sec <? u32 (windowStart c + 20)).

(** Daily scheduled watering. *)
Definition scheduleBlock : M unit :=
  c <- gets cfg;;
  watered <- gets wateredToday;;
  sec <- gets secondsToday;;
  if scheduleFires c watered sec then timedRun SchedRun else ret tt.

Definition loop : M unit :=
  ticker;;
  soilBlock;;
  levelBlock;;
  scheduleBlock;;
  delay 50.

(** [setup], without the construction of the BLE server: the relay is
    switched off, the stored configuration loaded, advertising started. *)
Definition setup : M unit :=
  c <- gets cfg;;
  emit (EDigitalWrite RELAY_PIN (relayActiveLow c));;
  loadConfig;;
  (if PWM_MODE then emit (ELedcWrite PUMP_PWM_PIN 0) else ret tt);;
  emit EAdvertise;;
  log "Smart Watering System Ready!".

(** [n] successive calls of [loop]. *)
Fixpoint loops (n : nat) : M unit :=
  match n with
  | O => ret tt
  | S n' => loop;; loops n'
  end.

End Firmware.

(** ** The two tasks

    [loop] runs on the Arduino loop task, the BLE callbacks run on the NimBLE
    host task.  While the loop task is blocked in the [delay] of a watering
    run the host task still delivers the writes of the client.  A [System]
    is the globals together with the position of the loop task: [sleeping]
    is [Some k] while it is inside the delay of a run of kind [k], whose
    completion [runEnd k] is then still to come. *)

Record System := mkSystem {
  mem : State;
  sleeping : option RunKind
}.

Definition step (m : M unit) (next : option RunKind) (sys : System)
  : option (System * list Event) :=
  match m (mem sys) with
  | Done _ s tr => Some (mkSystem s next, tr)
  | Stuck _ => None
  end.

(** The loop task starts a run and blocks in its delay. *)
Definition fallAsleep (k : RunKind) (sys : System) : option (System * list Event) :=
  match sleeping sys with
  | None => step runBegin (Some k) sys
  | Some _ => None
  end.

(** The delay is over: the loop task goes on with the rest of the run. *)
Definition wake (sys : System) : option (System * list Event) :=
  match sleeping sys with
  | Some k => step (runDelay;; runEnd k) None sys
  | None => None
  end.

(** A write to the command characteristic, served by the host task: the
    callback works on the globals and has no handle on the loop task. *)
Definition bleCommand (adc : Z -> Z -> Z) (fuel : nat) (value : string)
    (sys : System) : option (System * list Event) :=
  step (CmdCallbacks_onWrite adc fuel value) (sleeping sys) sys.

(** ** What the pieces of the sketch leave behind

    The state and the trace of each straight-line piece, as functions of the
    state it starts in; the lemmas of the next part show that the sketch
    computes them. *)

Definition logTrace (connected : bool) (msg : string) : list Event :=
  ESerial msg ::
  (if connected then [ESetValue LogChr (Text msg); ENotify LogChr] else []).

Definition pumpTrace (on : bool) (s : State) : list Event :=
  [ EDigitalWrite RELAY_PIN (if relayActiveLow (cfg s) then negb on else on);
    ESetValue StateChr (Bytes [b2z on; flowPct (cfg s)]);
    ENotify StateChr ] ++
  logTrace (clientConnected s) (if on then "Pump ON" else "Pump OFF").

Definition completionLine (k : RunKind) : string :=
  match k with
  | AutoRun => "Auto watering completed"
  | SchedRun => "Scheduled watering done"
  end.

Definition afterRunEnd (k : RunKind) (s : State) : State :=
  match k with
  | AutoRun => set_pumpRunning false s
  | SchedRun => set_wateredToday true (set_pumpRunning false s)
  end.

Definition runEndTrace (k : RunKind) (s : State) : list Event :=
  pumpTrace false s ++ logTrace (clientConnected s) (completionLine k).

Definition afterRun (k : RunKind) (s : State) : State :=
  afterRunEnd k
    (set_clock (clock s + u32 (durationSec (cfg s) * 1000))
       (set_pumpRunning true s)).

Definition runTrace (k : RunKind) (s : State) : list Event :=
  pumpTrace true s ++ runEndTrace k s.

Definition tickDue (s : State) : bool :=
  1000 <=? u32 (u32 (clock s) - lastSecond s).

Definition afterTick (s : State) : State :=
  if tickDue s then
    let sec := u32 (secondsToday s + 1) mod 86400 in
    let s1 := set_secondsToday sec (set_lastSecond (u32 (clock s)) s) in
    if sec <? 10 then set_wateredToday false s1 else s1
  else s.

Definition soilDue (s : State) : bool :=
  1000 <? u32 (u32 (clock s) - lastSoilTime s).

Definition soilReading (adc : Z -> Z -> Z) (s : State) : Z :=
  u16 (adc SOIL_PIN (clock s)).

(** Whether the soil block starts a run. *)
Definition autoStarts (adc : Z -> Z -> Z) (s : State) : bool :=
  soilDue s && thresholdFires (cfg s) (soilReading adc s) (pumpRunning s).

Definition afterSoil (adc : Z -> Z -> Z) (s : State) : State :=
  if soilDue s then
    let s1 := set_lastSoilTime (u32 (clock s)) s in
    if thresholdFires (cfg s) (soilReading adc s) (pumpRunning s)
    then afterRun AutoRun s1 else s1
  else s.

Definition soilTrace (adc : Z -> Z -> Z) (s : State) : list Event :=
  if soilDue s then
    [ ESetValue SoilChr
        (Bytes [lowByte (soilReading adc s); highByte (soilReading adc s)]);
      ENotify SoilChr ] ++
    (if thresholdFires (cfg s) (soilReading adc s) (pumpRunning s)
     then runTrace AutoRun s else [])
  else [].

Definition levelDue (s : State) : bool :=
  2000 <? u32 (u32 (clock s) - lastLevelTime s).

Definition afterLevel (s : State) : State :=
  if levelDue s then set_lastLevelTime (u32 (clock s)) s else s.

Definition levelTrace (adc : Z -> Z -> Z) (s : State) : list Event :=
  if levelDue s then
    [ ESetValue LevelChr
        (Bytes [lowByte (u16 (adc LEVEL_PIN (clock s)));
                highByte (u16 (adc LEVEL_PIN (clock s)))]);
      ENotify LevelChr ]
  else [].

(** Whether the schedule block starts a run. *)
Definition schedStarts (s : State) : bool :=
  scheduleFires (cfg s) (wateredToday s) (secondsToday s).

Definition afterSchedule (s : State) : State :=
  if schedStarts s then afterRun SchedRun s else s.

Definition scheduleTrace (s : State) : list Event :=
  if schedStarts s then runTrace SchedRun s else [].

(** The state in which the schedule block of a call of [loop] runs. *)
Definition beforeSchedule (adc : Z -> Z -> Z) (s : State) : State :=
  afterLevel (afterSoil adc (afterTick s)).

(** One call of [loop], block after block. *)
Definition afterLoop (adc : Z -> Z -> Z) (s : State) : State :=
  set_clock (clock (afterSchedule (beforeSchedule adc s)) + u32 50)
    (afterSchedule (beforeSchedule adc s)).

Definition loopTrace (adc : Z -> Z -> Z) (s : State) : list Event :=
  soilTrace adc (afterTick s) ++
  levelTrace adc (afterSoil adc (afterTick s)) ++
  scheduleTrace (beforeSchedule adc s).

Fixpoint afterLoops (adc : Z -> Z -> Z) (n : nat) (s : State) : State :=
  match n with
  | O => s
  | S n' => afterLoops adc n' (afterLoop adc s)
  end.

Fixpoint loopsTrace (adc : Z -> Z -> Z) (n : nat) (s : State) : list Event :=
  match n with
  | O => []
  | S n' => loopTrace adc s ++ loopsTrace adc n' (afterLoop adc s)
  end.

(** The schedule set for 07:00 every day. *)
Definition dailyAtSeven (c : Config) : Prop :=
  scheduleOn c = true /\ startHour c = 7 /\ startMin c = 0.

(** [n] calls of [loop] from [s] stay within one day: [secondsToday] never
    steps back, that is, it does not wrap around. *)
Fixpoint sameDay (adc : Z -> Z -> Z) (n : nat) (s : State) : bool :=
  match n with
  | O => true
  | S n' =>
      (secondsToday s <=? secondsToday (afterLoop adc s)) &&
      sameDay adc n' (afterLoop adc s)
  end.

(** The sum of [k] samples taken every 100 ms from time [c] on, added to
    [sum] as the sampling loop of the autotune does. *)
Fixpoint sampleSum (adc : Z -> Z -> Z) (k : nat) (c sum : Z) : Z :=
  match k with
  | O => sum
  | S k' => sampleSum adc k' (c + 100) (u32 (sum + u16 (adc SOIL_PIN c)))
  end.

(** The threshold that the autotune started in [s] computes. *)
Definition tunedThreshold (adc : Z -> Z -> Z) (s : State) : Z :=
  u16 (u16 (sampleSum adc 100 (clock s + 2000) 0 / 100) + 200).

Definition autotuneTrace (connected : bool) (c : Config) : list Event :=
  logTrace connected "Autotune started (10 sec dry reading)..." ++
  logTrace connected ("Autotune done → new threshold = " +:+ decimal (threshold c)) ++
  [ESetValue ConfigChr (Bytes (packConfig c)); ENotify ConfigChr].

(** ** Inputs of the examples *)

(** A sensor that reads 1000 on every pin at all times. *)
Definition steadyAdc (pin t : Z) : Z := 1000.

(** A dry spell: the sensor reads 1000 until time 7000 and 2500 from then
    on, and the sketch with the defaults, idle, at time 5000. *)
Definition scenarioAdc (pin t : Z) : Z := if t <? 7000 then 1000 else 2500.
Definition scenarioState : State :=
  mkState defaultConfig ∅ false false 0 0 0 0 false 5000.

(** The schedule set for 07:00, and the pump switched on by hand at second
    25199 of the day. *)
Definition scheduledConfig : Config :=
  {| threshold := 2200; flowPct := 100; startHour := 7; startMin := 0;
     durationSec := 30; scheduleOn := true; relayActiveLow := true |}.
Definition runningState : State :=
  mkState scheduledConfig ∅ true false 0 0 25199 0 false 1000.

(** The loop task inside the delay of an automatic run. *)
Definition wateringSystem : System :=
  mkSystem (mkState defaultConfig ∅ true false 7000 0 7 7000 false 7000)
    (Some AutoRun).

(** The same system once the OFF command has been served. *)
Definition stoppedSystem : System :=
  mkSystem (set_pumpRunning false (mem wateringSystem)) (Some AutoRun).

(** The schedule on for 07:00, the pump idle, one second before the window. *)
Definition beforeWindow : State :=
  mkState scheduledConfig ∅ false false 0 0 25199 0 false 1000.

(** ** Further readings of the store and of the trace *)

(** The keys that [saveConfig] writes and [loadConfig] reads. *)
Definition storeKeys : list string := ["th"; "fp"; "sh"; "sm"; "dur"; "sch"; "inv"].

(** The lines printed on the serial port, in order, and the values set on
    the log characteristic, in order. *)
Fixpoint serialLines (tr : list Event) : list string :=
  match tr with
  | [] => []
  | ESerial line :: tr' => line :: serialLines tr'
  | _ :: tr' => serialLines tr'
  end.

Fixpoint logValues (tr : list Event) : list Payload :=
  match tr with
  | [] => []
  | ESetValue LogChr v :: tr' => v :: logValues tr'
  | _ :: tr' => logValues tr'
  end.

Definition isLogNotify (e : Event) : bool :=
  match e with ENotify LogChr => true | _ => false end.
Definition isSoilValue (e : Event) : bool :=
  match e with ESetValue SoilChr _ => true | _ => false end.

(** Every line goes to the serial port, and to the client exactly when one
    is connected: the values set on the log characteristic are the texts of
    the lines printed, in the same order, when a client is connected, and
    there are none otherwise; each value set is notified. *)
Definition mirrored (connected : bool) (tr : list Event) : Prop :=
  logValues tr = (if connected then map Text (serialLines tr) else []) /\
  countEvents isLogNotify tr = length (logValues tr).

(** The writes of the relay pin. *)
Definition isRelayWrite (e : Event) : bool :=
  match e with EDigitalWrite pin _ => pin =? RELAY_PIN | _ => false end.
Definition relayWrites (tr : list Event) : nat := countEvents isRelayWrite tr.

(** The output of a whole watering run of the loop under the configuration
    [c]: relay to the on level, pump state 1, "Pump ON"; relay to the off
    level, pump state 0, "Pump OFF"; the completion line. *)
Definition runEvents (k : RunKind) (c : Config) (connected : bool) : list Event :=
  [ EDigitalWrite RELAY_PIN (negb (relayActiveLow c));
    ESetValue StateChr (Bytes [1; flowPct c]); ENotify StateChr ] ++
  logTrace connected "Pump ON" ++
  [ EDigitalWrite RELAY_PIN (relayActiveLow c);
    ESetValue StateChr (Bytes [0; flowPct c]); ENotify StateChr ] ++
  logTrace connected "Pump OFF" ++
  logTrace connected (completionLine k).

(** The [k] samples that the autotune takes every 100 ms from time [c] on,
    and their sum. *)
Fixpoint samples (adc : Z -> Z -> Z) (k : nat) (c : Z) : list Z :=
  match k with
  | O => []
  | S k' => u16 (adc SOIL_PIN c) :: samples adc k' (c + 100)
  end.

Fixpoint total (l : list Z) : Z :=
  match l with
  | [] => 0
  | x :: l' => x + total l'
  end.

(** The store of a device that was configured for a relay switching on a
    high level. *)
Definition activeHighStore : gmap string PrefVal := <["inv" := PBool false]> ∅.

(** Midnight schedule: the window starts at second 0 of the day. *)
Definition midnightConfig : Config :=
  {| threshold := 2200; flowPct := 100; startHour := 0; startMin := 0;
     durationSec := 30; scheduleOn := true; relayActiveLow := true |}.
Definition beforeMidnight : State :=
  mkState midnightConfig ∅ false false 0 0 86399 0 true 1000.

(** The millisecond counter about to wrap: half a second before 2^32. *)
Definition beforeRollover : State :=
  mkState defaultConfig ∅ false false (2 ^ 32 - 500) (2 ^ 32 - 500) 100
    (2 ^ 32 - 500) false (2 ^ 32 + 500).

(** * Properties *)

(** ** Arithmetic of the fixed widths *)

Lemma u8_small z : 0 <= z < 2 ^ 8 -> u8 z = z.
Proof. intros H. unfold u8. now apply Z.mod_small. Qed.

Lemma u16_small z : 0 <= z < 2 ^ 16 -> u16 z = z.
Proof. intros H. unfold u16. now apply Z.mod_small. Qed.

Lemma u32_small z : 0 <= z < 2 ^ 32 -> u32 z = z.
Proof. intros H. unfold u32. now apply Z.mod_small. Qed.

Lemma u8_range z : 0 <= u8 z < 2 ^ 8.
Proof. unfold u8. apply Z.mod_pos_bound. lia. Qed.

Lemma u16_range z : 0 <= u16 z < 2 ^ 16.
Proof. unfold u16. apply Z.mod_pos_bound. lia. Qed.

Lemma u32_range z : 0 <= u32 z < 2 ^ 32.
Proof. unfold u32. apply Z.mod_pos_bound. lia. Qed.

(** The two bytes of a 16-bit value, low byte first, give the value back. *)
Lemma le16_join t :
  0 <= t < 2 ^ 16 ->
  Z.lor (Z.land t 255) (Z.shiftl (Z.shiftr t 8) 8) = t.
Proof.
  intros Ht. apply Z.bits_inj'. intros n Hn.
  rewrite Z.lor_spec, Z.shiftl_spec by lia.
  change 255 with (Z.ones 8). rewrite Z.land_spec.
  destruct (Z.ltb_spec n 8) as [Hlt | Hge].
  - rewrite Z.ones_spec_low by lia.
    rewrite (Z.testbit_neg_r _ (n - 8)) by lia.
    now rewrite andb_true_r, orb_false_r.
  - rewrite Z.ones_spec_high by lia.
    rewrite Z.shiftr_spec by lia.
    rewrite andb_false_r. simpl. f_equal. lia.
Qed.

Lemma low_byte_range t : 0 <= t -> 0 <= Z.land t 255 < 2 ^ 8.
Proof.
  intros Ht. change 255 with (Z.ones 8). rewrite Z.land_ones by lia.
  apply Z.mod_pos_bound. lia.
Qed.

Lemma high_byte_range t : 0 <= t < 2 ^ 16 -> 0 <= Z.shiftr t 8 < 2 ^ 8.
Proof.
  intros Ht. rewrite Z.shiftr_div_pow2 by lia. split.
  - apply Z.div_pos; lia.
  - apply Z.div_lt_upper_bound; lia.
Qed.

Lemma le16_roundtrip t :
  0 <= t < 2 ^ 16 ->
  u16 (Z.lor (u8 (u8 (Z.land t 255))) (Z.shiftl (u8 (u8 (Z.shiftr t 8))) 8)) = t.
Proof.
  intros Ht.
  rewrite !(u8_small (Z.land t 255)) by (apply low_byte_range; lia).
  rewrite !(u8_small (Z.shiftr t 8)) by now apply high_byte_range.
  rewrite le16_join by assumption. now apply u16_small.
Qed.

Lemma z2b_b2z b : z2b (u8 (b2z b)) = b.
Proof. now destruct b. Qed.

(** ** Running computations *)

Lemma bind_run {A B : Type} (m : M A) (k : A -> M B) s a s1 o1 :
  m s = Done a s1 o1 ->
  bind m k s =
  match k a s1 with
  | Done b s2 o2 => Done b s2 (o1 ++ o2)
  | Stuck f => Stuck f
  end.
Proof. intros H. unfold bind. now rewrite H. Qed.

Lemma countEvents_app p tr1 tr2 :
  countEvents p (tr1 ++ tr2) = (countEvents p tr1 + countEvents p tr2)%nat.
Proof.
  induction tr1 as [| e tr1 IH]; simpl; [reflexivity |].
  destruct (p e); simpl; now rewrite IH.
Qed.

(** ** The configuration codec *)

Lemma decodeFields_packConfig c :
  representable c -> decodeFields (packConfig c) = c.
Proof.
  intros (Ht & Hf & Hh & Hm & Hd). destruct c as [t f h m d so ral].
  simpl in *. unfold decodeFields, packConfig, byte_at. simpl.
  rewrite !le16_roundtrip by assumption.
  rewrite !z2b_b2z.
  rewrite !(u8_small f), !(u8_small h), !(u8_small m) by assumption.
  reflexivity.
Qed.

Lemma decodeFields_representable data : representable (decodeFields data).
Proof.
  unfold representable, decodeFields, byte_at. simpl.
  repeat split; try apply u16_range; try apply u8_range.
Qed.

Lemma unpackConfig_short data s :
  (length data < 10)%nat -> unpackConfig data s = Done tt s [].
Proof.
  intros H. unfold unpackConfig.
  destruct (Z.ltb_spec (Z.of_nat (length data)) 10); [reflexivity | lia].
Qed.

Lemma unpackConfig_long data s :
  (10 <= length data)%nat ->
  unpackConfig data s =
  Done tt (set_nvs (savePrefs (decodeFields data) (nvs s))
             (set_cfg (decodeFields data) s)) [].
Proof.
  intros H. unfold unpackConfig.
  destruct (Z.ltb_spec (Z.of_nat (length data)) 10); [lia | reflexivity].
Qed.

(** ** The pieces of the sketch compute their summaries *)

Lemma log_run msg s : log msg s = Done tt s (logTrace (clientConnected s) msg).
Proof. unfold log, logTrace. cbn. now destruct (clientConnected s). Qed.

Lemma setPump_run on s :
  setPump on s = Done tt (set_pumpRunning on s) (pumpTrace on s).
Proof.
  unfold setPump, pumpTrace, logTrace. cbn. now destruct (clientConnected s).
Qed.

Lemma runEnd_run k s :
  runEnd k s = Done tt (afterRunEnd k s) (runEndTrace k s).
Proof.
  unfold runEnd, runEndTrace.
  rewrite (bind_run _ _ _ _ _ _ (setPump_run false s)).
  destruct k; cbn; destruct (clientConnected s); reflexivity.
Qed.

Lemma timedRun_run k s :
  timedRun k s = Done tt (afterRun k s) (runTrace k s).
Proof.
  unfold timedRun, runBegin, runTrace, afterRun.
  rewrite (bind_run _ _ _ _ _ _ (setPump_run true s)).
  unfold runDelay, delay. cbn -[runEnd u32 pumpTrace].
  rewrite runEnd_run. reflexivity.
Qed.

Lemma ticker_run s : ticker s = Done tt (afterTick s) [].
Proof.
  unfold ticker, afterTick, tickDue. cbn -[u32 Z.leb Z.ltb Z.modulo].
  destruct (1000 <=? u32 (u32 (clock s) - lastSecond s)); [| reflexivity].
  cbn -[u32 Z.leb Z.ltb Z.modulo].
  destruct (u32 (secondsToday s + 1) mod 86400 <? 10); reflexivity.
Qed.

Lemma soilBlock_run adc s :
  soilBlock adc s = Done tt (afterSoil adc s) (soilTrace adc s).
Proof.
  unfold soilBlock, afterSoil, soilTrace, soilDue, soilReading.
  cbn -[u32 u16 Z.ltb timedRun thresholdFires lowByte highByte].
  destruct (1000 <? u32 (u32 (clock s) - lastSoilTime s)); [| reflexivity].
  cbn -[u32 u16 Z.ltb timedRun thresholdFires lowByte highByte].
  destruct (thresholdFires (cfg s) (u16 (adc SOIL_PIN (clock s))) (pumpRunning s)).
  - rewrite timedRun_run. reflexivity.
  - reflexivity.
Qed.

Lemma levelBlock_run adc s :
  levelBlock adc s = Done tt (afterLevel s) (levelTrace adc s).
Proof.
  unfold levelBlock, afterLevel, levelTrace, levelDue.
  cbn -[u32 u16 Z.ltb lowByte highByte].
  destruct (2000 <? u32 (u32 (clock s) - lastLevelTime s)); reflexivity.
Qed.

Lemma scheduleBlock_run s :
  scheduleBlock s = Done tt (afterSchedule s) (scheduleTrace s).
Proof.
  unfold scheduleBlock, afterSchedule, scheduleTrace, schedStarts.
  cbn -[timedRun scheduleFires].
  destruct (scheduleFires (cfg s) (wateredToday s) (secondsToday s)).
  - rewrite timedRun_run. reflexivity.
  - reflexivity.
Qed.

Lemma delay_run ms s : delay ms s = Done tt (set_clock (clock s + u32 ms) s) [].
Proof. reflexivity. Qed.

(** [loop] always returns, with the state and the trace of its blocks. *)
Lemma loop_run adc s : loop adc s = Done tt (afterLoop adc s) (loopTrace adc s).
Proof.
  unfold loop.
  rewrite (bind_run _ _ _ _ _ _ (ticker_run s)).
  rewrite (bind_run _ _ _ _ _ _ (soilBlock_run adc _)).
  rewrite (bind_run _ _ _ _ _ _ (levelBlock_run adc _)).
  rewrite (bind_run _ _ _ _ _ _ (scheduleBlock_run _)).
  rewrite delay_run. cbv beta iota.
  unfold afterLoop, loopTrace, beforeSchedule.
  rewrite !app_nil_r, app_nil_l. reflexivity.
Qed.

Lemma loops_run adc n s :
  loops adc n s = Done tt (afterLoops adc n s) (loopsTrace adc n s).
Proof.
  revert s. induction n as [| n IH]; intros s; [reflexivity |].
  cbn [loops afterLoops loopsTrace].
  rewrite (bind_run _ _ _ _ _ _ (loop_run adc s)).
  now rewrite IH.
Qed.

(** ** Claims on the configuration codec *)

(** C4. Round trip: for every configuration whose fields fit the widths of
    the record (16 bits for [threshold] and [durationSec], 8 bits for
    [flowPct], [startHour] and [startMin]; the two flags are booleans),
    unpacking the 10 bytes that [packConfig] produces for it, from any
    state, returns and leaves exactly that configuration in [cfg]. *)
Theorem config_roundtrip (c : Config) (s : State) :
  representable c ->
  length (packConfig c) = 10%nat /\
  exists s', unpackConfig (packConfig c) s = Done tt s' [] /\ cfg s' = c.
Proof.
  intros Hc. split; [reflexivity |].
  eexists. split.
  - apply unpackConfig_long. simpl. lia.
  - simpl. now apply decodeFields_packConfig.
Qed.

Lemma config_roundtrip_witness :
  exists s', unpackConfig (packConfig defaultConfig) bootState = Done tt s' [] /\
             cfg s' = defaultConfig.
Proof.
  apply (config_roundtrip defaultConfig bootState).
  unfold representable. simpl. lia.
Defined.

(** C5. A config write shorter than 10 bytes is rejected: [unpackConfig]
    returns at once, the state (the configuration, the store and everything
    else) is the one before and nothing is output; the write callback
    around it returns too and leaves the state as it was. *)
Theorem short_config_write_rejected (data : list Z) (s : State) :
  (length data < 10)%nat ->
  unpackConfig data s = Done tt s [] /\
  exists tr, ConfigCallbacks_onWrite data s = Done tt s tr.
Proof.
  intros Hlen. split.
  - now apply unpackConfig_short.
  - unfold ConfigCallbacks_onWrite.
    rewrite (bind_run _ _ _ _ _ _ (unpackConfig_short data s Hlen)).
    rewrite log_run. eexists. reflexivity.
Qed.

Lemma short_config_write_rejected_witness :
  unpackConfig [1; 2; 3] bootState = Done tt bootState [] /\
  exists tr, ConfigCallbacks_onWrite [1; 2; 3] bootState = Done tt bootState tr.
Proof.
  apply (short_config_write_rejected [1; 2; 3] bootState). simpl. lia.
Defined.

Lemma byte_at_take data i : (i < 9)%nat -> byte_at (take 9 data) i = byte_at data i.
Proof.
  intros Hi. unfold byte_at. rewrite nth_firstn.
  destruct (Nat.ltb_spec i 9); [reflexivity | lia].
Qed.

Lemma decodeFields_take data : decodeFields (take 9 data) = decodeFields data.
Proof.
  unfold decodeFields. rewrite !byte_at_take by lia. reflexivity.
Qed.

Lemma z2b_true z : z2b z = true <-> z <> 0.
Proof.
  unfold z2b. destruct (Z.eqb_spec z 0); simpl; split; intros; congruence.
Qed.

(** C9. A config write of at least 10 bytes is always decoded: [unpackConfig]
    returns with [cfg] holding the fields read from bytes 0 to 8, whatever
    their values; [scheduleOn] and [relayActiveLow] are true exactly when
    byte 7, respectively byte 8, is not zero; and byte 9 (the version
    position) and the bytes after it have no influence. *)
Theorem long_config_write_decoded (data : list Z) (s : State) :
  (10 <= length data)%nat ->
  exists s',
    unpackConfig data s = Done tt s' [] /\
    cfg s' = decodeFields data /\
    representable (cfg s') /\
    (scheduleOn (cfg s') = true <-> byte_at data 7 <> 0) /\
    (relayActiveLow (cfg s') = true <-> byte_at data 8 <> 0) /\
    forall data' : list Z,
      (10 <= length data')%nat -> take 9 data' = take 9 data ->
      unpackConfig data' s = Done tt s' [].
Proof.
  intros Hlen. eexists. split; [now apply unpackConfig_long |].
  simpl. repeat split.
  - apply u16_range.
  - apply u16_range.
  - apply u8_range.
  - apply u8_range.
  - apply u8_range.
  - apply u8_range.
  - apply u8_range.
  - apply u8_range.
  - apply u16_range.
  - apply u16_range.
  - now apply z2b_true.
  - now apply z2b_true.
  - now apply z2b_true.
  - now apply z2b_true.
  - intros data' Hlen' Htake. rewrite unpackConfig_long by assumption.
    rewrite <- (decodeFields_take data'), Htake, decodeFields_take.
    reflexivity.
Qed.

Lemma long_config_write_decoded_witness :
  exists s',
    unpackConfig [1; 2; 3; 4; 5; 6; 7; 8; 0; 99] bootState = Done tt s' [] /\
    scheduleOn (cfg s') = true /\ relayActiveLow (cfg s') = false.
Proof.
  destruct (long_config_write_decoded [1; 2; 3; 4; 5; 6; 7; 8; 0; 99] bootState)
    as (s' & Hrun & Hcfg & _).
  - simpl. lia.
  - exists s'. split; [exact Hrun |]. rewrite Hcfg. split; reflexivity.
Defined.

(** ** Claims on the main loop *)

(** C7. The clock tick: when a second has gone by since [lastSecond] and
    [secondsToday] is within the day, the ticker returns with [secondsToday]
    incremented modulo 86400; if the new value is below 10, [wateredToday]
    is false whatever it was, and otherwise it keeps its value. *)
Theorem clock_tick (s : State) :
  tickDue s = true ->
  0 <= secondsToday s < 86400 ->
  exists s',
    ticker s = Done tt s' [] /\
    secondsToday s' = (secondsToday s + 1) mod 86400 /\
    (secondsToday s' < 10 -> wateredToday s' = false) /\
    (10 <= secondsToday s' -> wateredToday s' = wateredToday s).
Proof.
  intros Hdue Hsec. exists (afterTick s). split; [apply ticker_run |].
  unfold afterTick. rewrite Hdue.
  rewrite (u32_small (secondsToday s + 1)) by lia.
  destruct (Z.ltb_spec ((secondsToday s + 1) mod 86400) 10); simpl;
    repeat split; intros; try reflexivity; lia.
Qed.

Lemma clock_tick_witness :
  exists s',
    ticker (mkState defaultConfig ∅ false false 0 0 86399 0 true 1000) =
      Done tt s' [] /\
    secondsToday s' = (86399 + 1) mod 86400 /\
    (secondsToday s' < 10 -> wateredToday s' = false) /\
    (10 <= secondsToday s' -> wateredToday s' = true).
Proof.
  apply (clock_tick (mkState defaultConfig ∅ false false 0 0 86399 0 true 1000)).
  - reflexivity.
  - simpl. lia.
Defined.

(** *** Counting in the traces of the blocks *)

Lemma logged_app line tr1 tr2 :
  logged line (tr1 ++ tr2) = logged line tr1 || logged line tr2.
Proof.
  unfold logged. rewrite countEvents_app.
  destruct (countEvents (isSerial line) tr1); reflexivity.
Qed.

Lemma runsStarted_app tr1 tr2 :
  runsStarted (tr1 ++ tr2) = (runsStarted tr1 + runsStarted tr2)%nat.
Proof. apply countEvents_app. Qed.

Lemma pumpCalls_app tr1 tr2 :
  pumpCalls (tr1 ++ tr2) = (pumpCalls tr1 + pumpCalls tr2)%nat.
Proof. apply countEvents_app. Qed.

Lemma runTrace_counts k s :
  runsStarted (runTrace k s) = 1%nat /\ pumpCalls (runTrace k s) = 2%nat.
Proof.
  unfold runTrace, runEndTrace, pumpTrace, logTrace, runsStarted, pumpCalls.
  destruct (clientConnected s); split; reflexivity.
Qed.

Lemma runTrace_logged k k' s :
  logged (completionLine k') (runTrace k s) =
  match k, k' with
  | AutoRun, AutoRun | SchedRun, SchedRun => true
  | _, _ => false
  end.
Proof.
  unfold runTrace, runEndTrace, pumpTrace, logTrace, logged.
  destruct (clientConnected s), k, k'; reflexivity.
Qed.

Lemma soilTrace_counts adc s :
  runsStarted (soilTrace adc s) = (if autoStarts adc s then 1 else 0)%nat /\
  pumpCalls (soilTrace adc s) = (if autoStarts adc s then 2 else 0)%nat /\
  logged (completionLine AutoRun) (soilTrace adc s) = autoStarts adc s /\
  logged (completionLine SchedRun) (soilTrace adc s) = false.
Proof.
  unfold soilTrace, autoStarts. destruct (soilDue s); [| repeat split].
  rewrite andb_true_l. destruct (thresholdFires _ _ _).
  - rewrite runsStarted_app, pumpCalls_app, !logged_app.
    destruct (runTrace_counts AutoRun s) as [H1 H2]. rewrite H1, H2.
    rewrite (runTrace_logged AutoRun AutoRun s).
    rewrite (runTrace_logged AutoRun SchedRun s).
    repeat split.
  - repeat split.
Qed.

Lemma levelTrace_counts adc s p :
  (forall c v, p (ESetValue c v) = true -> c = StateChr) ->
  (forall c, p (ENotify c) = false) ->
  countEvents p (levelTrace adc s) = 0%nat.
Proof.
  intros Hset Hnot. unfold levelTrace. destruct (levelDue s); [| reflexivity].
  simpl. rewrite Hnot.
  destruct (p (ESetValue LevelChr _)) eqn:E; [| reflexivity].
  apply Hset in E. discriminate.
Qed.

Lemma levelTrace_runs adc s : runsStarted (levelTrace adc s) = 0%nat.
Proof.
  apply levelTrace_counts.
  - intros [] v; simpl; congruence.
  - reflexivity.
Qed.

Lemma levelTrace_logged line adc s : logged line (levelTrace adc s) = false.
Proof.
  unfold logged. rewrite levelTrace_counts; [reflexivity | |].
  - intros c v; simpl; congruence.
  - reflexivity.
Qed.

Lemma scheduleTrace_counts s :
  runsStarted (scheduleTrace s) = (if schedStarts s then 1 else 0)%nat /\
  logged (completionLine SchedRun) (scheduleTrace s) = schedStarts s /\
  logged (completionLine AutoRun) (scheduleTrace s) = false.
Proof.
  unfold scheduleTrace. destruct (schedStarts s).
  - destruct (runTrace_counts SchedRun s) as [H1 _]. rewrite H1.
    repeat split.
    + apply (runTrace_logged SchedRun SchedRun s).
    + apply (runTrace_logged SchedRun AutoRun s).
  - repeat split.
Qed.

(** *** What the blocks leave alone *)

Lemma afterTick_frame s :
  cfg (afterTick s) = cfg s /\ pumpRunning (afterTick s) = pumpRunning s /\
  clock (afterTick s) = clock s /\ lastSoilTime (afterTick s) = lastSoilTime s /\
  lastLevelTime (afterTick s) = lastLevelTime s.
Proof.
  unfold afterTick. destruct (tickDue s); [| repeat split].
  simpl. destruct (_ <? 10); repeat split.
Qed.

Lemma afterRun_frame k s :
  cfg (afterRun k s) = cfg s /\ secondsToday (afterRun k s) = secondsToday s /\
  lastSecond (afterRun k s) = lastSecond s /\
  pumpRunning (afterRun k s) = false /\
  wateredToday (afterRun k s) =
    match k with AutoRun => wateredToday s | SchedRun => true end.
Proof. destruct k; repeat split. Qed.

Lemma afterSoil_frame adc s :
  cfg (afterSoil adc s) = cfg s /\
  secondsToday (afterSoil adc s) = secondsToday s /\
  wateredToday (afterSoil adc s) = wateredToday s /\
  lastSecond (afterSoil adc s) = lastSecond s.
Proof.
  unfold afterSoil. destruct (soilDue s); [| repeat split].
  destruct (thresholdFires _ _ _); repeat split.
Qed.

Lemma afterLevel_frame s :
  cfg (afterLevel s) = cfg s /\
  secondsToday (afterLevel s) = secondsToday s /\
  wateredToday (afterLevel s) = wateredToday s /\
  lastSecond (afterLevel s) = lastSecond s /\
  pumpRunning (afterLevel s) = pumpRunning s.
Proof. unfold afterLevel. destruct (levelDue s); repeat split. Qed.

Lemma afterSchedule_frame s :
  cfg (afterSchedule s) = cfg s /\
  secondsToday (afterSchedule s) = secondsToday s /\
  lastSecond (afterSchedule s) = lastSecond s /\
  wateredToday (afterSchedule s) = (schedStarts s || wateredToday s).
Proof.
  unfold afterSchedule. destruct (schedStarts s); [| repeat split].
  destruct (afterRun_frame SchedRun s) as (H1 & H2 & H3 & _ & H5).
  now rewrite H1, H2, H3, H5.
Qed.

Lemma beforeSchedule_frame adc s :
  cfg (beforeSchedule adc s) = cfg s /\
  secondsToday (beforeSchedule adc s) = secondsToday (afterTick s) /\
  wateredToday (beforeSchedule adc s) = wateredToday (afterTick s).
Proof.
  unfold beforeSchedule.
  destruct (afterLevel_frame (afterSoil adc (afterTick s))) as (L1 & L2 & L3 & _).
  destruct (afterSoil_frame adc (afterTick s)) as (S1 & S2 & S3 & _).
  destruct (afterTick_frame s) as (T1 & _).
  rewrite L1, L2, L3, S1, S2, S3, T1. repeat split.
Qed.

Lemma loopTrace_runs adc s :
  runsStarted (loopTrace adc s) =
  ((if autoStarts adc (afterTick s) then 1 else 0) +
   (if schedStarts (beforeSchedule adc s) then 1 else 0))%nat.
Proof.
  unfold loopTrace. rewrite !runsStarted_app.
  destruct (soilTrace_counts adc (afterTick s)) as (H1 & _).
  destruct (scheduleTrace_counts (beforeSchedule adc s)) as (H2 & _).
  rewrite H1, H2, levelTrace_runs. lia.
Qed.

Lemma loopTrace_logged adc s :
  logged (completionLine AutoRun) (loopTrace adc s) = autoStarts adc (afterTick s) /\
  logged (completionLine SchedRun) (loopTrace adc s) =
    schedStarts (beforeSchedule adc s).
Proof.
  unfold loopTrace. rewrite !logged_app, !levelTrace_logged.
  destruct (soilTrace_counts adc (afterTick s)) as (_ & _ & H1 & H2).
  destruct (scheduleTrace_counts (beforeSchedule adc s)) as (_ & H3 & H4).
  rewrite H1, H2, H3, H4. split.
  - now rewrite !orb_false_r.
  - reflexivity.
Qed.

Lemma autoStarts_afterTick adc s :
  autoStarts adc (afterTick s) = autoStarts adc s.
Proof.
  destruct (afterTick_frame s) as (H1 & H2 & H3 & H4 & _).
  unfold autoStarts, soilDue, soilReading. now rewrite H1, H2, H3, H4.
Qed.

Lemma autoStarts_scheduleOn adc s :
  scheduleOn (cfg s) = true -> autoStarts adc s = false.
Proof.
  intros H. unfold autoStarts, thresholdFires. rewrite H. simpl.
  apply andb_false_r.
Qed.

Lemma schedStarts_scheduleOff s :
  scheduleOn (cfg s) = false -> schedStarts s = false.
Proof. intros H. unfold schedStarts, scheduleFires. now rewrite H. Qed.

(** *** The runs in the trace *)

Lemma afterTick_keeps s :
  nvs (afterTick s) = nvs s /\
  clientConnected (afterTick s) = clientConnected s.
Proof.
  unfold afterTick. destruct (tickDue s); [| split; reflexivity].
  cbv zeta. destruct (_ <? 10); split; reflexivity.
Qed.

Lemma afterRun_keeps k s :
  nvs (afterRun k s) = nvs s /\
  clientConnected (afterRun k s) = clientConnected s /\
  clock (afterRun k s) = clock s + u32 (durationSec (cfg s) * 1000).
Proof. destruct k; repeat split. Qed.

Lemma afterSoil_keeps adc s :
  nvs (afterSoil adc s) = nvs s /\
  clientConnected (afterSoil adc s) = clientConnected s /\
  pumpRunning (afterSoil adc s) =
    (if autoStarts adc s then false else pumpRunning s) /\
  clock (afterSoil adc s) =
    clock s + (if autoStarts adc s then u32 (durationSec (cfg s) * 1000) else 0).
Proof.
  unfold afterSoil, autoStarts. destruct (soilDue s).
  - rewrite andb_true_l. cbv zeta. destruct (thresholdFires _ _ _).
    + repeat split.
    + repeat split. cbn [clock set_lastSoilTime]. lia.
  - rewrite andb_false_l. repeat split. lia.
Qed.

Lemma afterLevel_keeps s :
  nvs (afterLevel s) = nvs s /\
  clientConnected (afterLevel s) = clientConnected s /\
  clock (afterLevel s) = clock s.
Proof. unfold afterLevel. destruct (levelDue s); repeat split. Qed.

Lemma afterSchedule_keeps s :
  nvs (afterSchedule s) = nvs s /\
  clientConnected (afterSchedule s) = clientConnected s /\
  pumpRunning (afterSchedule s) =
    (if schedStarts s then false else pumpRunning s) /\
  clock (afterSchedule s) =
    clock s + (if schedStarts s then u32 (durationSec (cfg s) * 1000) else 0).
Proof.
  unfold afterSchedule. destruct (schedStarts s).
  - repeat split.
  - repeat split. lia.
Qed.

Lemma set_clock_keeps t s :
  nvs (set_clock t s) = nvs s /\
  clientConnected (set_clock t s) = clientConnected s /\
  pumpRunning (set_clock t s) = pumpRunning s /\
  clock (set_clock t s) = t.
Proof. repeat split. Qed.

(** What one call of [loop] does to the store, the connection flag, the
    pump flag and the clock. *)
Lemma afterLoop_keeps adc s :
  nvs (afterLoop adc s) = nvs s /\
  clientConnected (afterLoop adc s) = clientConnected s /\
  pumpRunning (afterLoop adc s) =
    (if schedStarts (beforeSchedule adc s) then false
     else if autoStarts adc s then false else pumpRunning s) /\
  clock (afterLoop adc s) =
    clock s + (if autoStarts adc s then u32 (durationSec (cfg s) * 1000) else 0)
    + (if schedStarts (beforeSchedule adc s)
       then u32 (durationSec (cfg s) * 1000) else 0)
    + 50.
Proof.
  unfold afterLoop.
  destruct (set_clock_keeps
              (clock (afterSchedule (beforeSchedule adc s)) + u32 50)
              (afterSchedule (beforeSchedule adc s))) as (C1 & C2 & C3 & C4).
  rewrite C1, C2, C3, C4. clear C1 C2 C3 C4.
  destruct (afterSchedule_keeps (beforeSchedule adc s)) as (S1 & S2 & S3 & S4).
  rewrite S1, S2, S3, S4. clear S1 S2 S3 S4.
  destruct (beforeSchedule_frame adc s) as (Bc & _).
  rewrite Bc.
  set (fires := schedStarts (beforeSchedule adc s)). clearbody fires.
  unfold beforeSchedule.
  destruct (afterLevel_keeps (afterSoil adc (afterTick s))) as (L1 & L2 & L3).
  destruct (afterLevel_frame (afterSoil adc (afterTick s))) as (_ & _ & _ & _ & L5).
  rewrite L1, L2, L3, L5. clear L1 L2 L3 L5.
  destruct (afterSoil_keeps adc (afterTick s)) as (A1 & A2 & A3 & A4).
  rewrite A1, A2, A3, A4. clear A1 A2 A3 A4.
  rewrite autoStarts_afterTick.
  destruct (afterTick_keeps s) as (T1 & T2).
  destruct (afterTick_frame s) as (T3 & T4 & T5 & _).
  rewrite T1, T2, T3, T4, T5.
  change (u32 50) with 50.
  split; [reflexivity |]. split; [reflexivity |]. split; [reflexivity |]. lia.
Qed.

Lemma loopTrace_runs_le adc s : (runsStarted (loopTrace adc s) <= 1)%nat.
Proof.
  rewrite loopTrace_runs, autoStarts_afterTick.
  destruct (beforeSchedule_frame adc s) as (Hcfg & _).
  destruct (scheduleOn (cfg s)) eqn:E.
  - rewrite autoStarts_scheduleOn by assumption.
    destruct (schedStarts _); simpl; lia.
  - rewrite schedStarts_scheduleOff by now rewrite Hcfg.
    destruct (autoStarts adc s); simpl; lia.
Qed.

Lemma relayWrites_app tr1 tr2 :
  relayWrites (tr1 ++ tr2) = (relayWrites tr1 + relayWrites tr2)%nat.
Proof. apply countEvents_app. Qed.

(** The trace of a run, event by event. *)
Lemma runTrace_events k s :
  runTrace k s = runEvents k (cfg s) (clientConnected s).
Proof.
  unfold runTrace, runEndTrace, pumpTrace, runEvents.
  destruct (relayActiveLow (cfg s)); reflexivity.
Qed.

Lemma relayWrites_logTrace c msg : relayWrites (logTrace c msg) = 0%nat.
Proof. unfold logTrace. now destruct c. Qed.

Lemma relayWrites_runEvents k c connected :
  relayWrites (runEvents k c connected) = 2%nat.
Proof. unfold runEvents, logTrace. now destruct connected. Qed.

Lemma relayWrites_levelTrace adc s : relayWrites (levelTrace adc s) = 0%nat.
Proof. unfold levelTrace. now destruct (levelDue s). Qed.

Lemma relayWrites_soilTrace adc s :
  relayWrites (soilTrace adc s) = (if autoStarts adc s then 2 else 0)%nat.
Proof.
  unfold soilTrace, autoStarts. destruct (soilDue s); [| reflexivity].
  rewrite andb_true_l. destruct (thresholdFires _ _ _); [| reflexivity].
  rewrite relayWrites_app, runTrace_events, relayWrites_runEvents. reflexivity.
Qed.

Lemma relayWrites_scheduleTrace s :
  relayWrites (scheduleTrace s) = (if schedStarts s then 2 else 0)%nat.
Proof.
  unfold scheduleTrace. destruct (schedStarts s); [| reflexivity].
  rewrite runTrace_events. apply relayWrites_runEvents.
Qed.

(** The relay is written twice for every run started, and never else. *)
Lemma relayWrites_loopTrace adc s :
  relayWrites (loopTrace adc s) = (2 * runsStarted (loopTrace adc s))%nat.
Proof.
  rewrite loopTrace_runs. unfold loopTrace.
  rewrite !relayWrites_app, relayWrites_soilTrace, relayWrites_levelTrace,
    relayWrites_scheduleTrace.
  destruct (autoStarts adc (afterTick s)), (schedStarts (beforeSchedule adc s));
    reflexivity.
Qed.

Lemma beforeSchedule_connected adc s :
  clientConnected (beforeSchedule adc s) = clientConnected s.
Proof.
  unfold beforeSchedule.
  destruct (afterLevel_keeps (afterSoil adc (afterTick s))) as (_ & L & _).
  destruct (afterSoil_keeps adc (afterTick s)) as (_ & A & _).
  destruct (afterTick_keeps s) as (_ & T).
  now rewrite L, A, T.
Qed.

(** A call of [loop] in which the soil block waters: the soil notification,
    the run, then what the level block outputs. *)
Lemma loopTrace_auto adc s :
  autoStarts adc s = true ->
  scheduleOn (cfg s) = false ->
  loopTrace adc s =
    ESetValue SoilChr
      (Bytes [lowByte (soilReading adc s); highByte (soilReading adc s)]) ::
    ENotify SoilChr ::
    runEvents AutoRun (cfg s) (clientConnected s) ++
    levelTrace adc (afterSoil adc (afterTick s)).
Proof.
  intros Hauto Hoff.
  destruct (afterTick_frame s) as (T1 & T2 & T3 & T4 & _).
  destruct (afterTick_keeps s) as (_ & T6).
  destruct (beforeSchedule_frame adc s) as (Bc & _).
  assert (Hsched : scheduleTrace (beforeSchedule adc s) = []).
  { unfold scheduleTrace.
    rewrite schedStarts_scheduleOff by now rewrite Bc. reflexivity. }
  rewrite <- autoStarts_afterTick in Hauto.
  unfold autoStarts in Hauto. apply andb_true_iff in Hauto as [Hdue Hfire].
  unfold loopTrace, soilTrace. rewrite Hsched, Hdue, Hfire, app_nil_r.
  rewrite runTrace_events, T1, T6.
  unfold soilReading. rewrite T3. reflexivity.
Qed.

(** A call of [loop] in which the schedule block waters: the run comes
    last, after an output without relay writes. *)
Lemma loopTrace_sched adc s :
  schedStarts (beforeSchedule adc s) = true ->
  scheduleOn (cfg s) = true ->
  exists pre,
    loopTrace adc s = pre ++ runEvents SchedRun (cfg s) (clientConnected s) /\
    relayWrites pre = 0%nat.
Proof.
  intros Hs Hon.
  destruct (beforeSchedule_frame adc s) as (Bc & _).
  exists (soilTrace adc (afterTick s) ++
          levelTrace adc (afterSoil adc (afterTick s))). split.
  - unfold loopTrace, scheduleTrace. rewrite Hs, runTrace_events.
    rewrite Bc, beforeSchedule_connected. now rewrite app_assoc.
  - rewrite relayWrites_app, relayWrites_soilTrace, relayWrites_levelTrace.
    rewrite autoStarts_afterTick, autoStarts_scheduleOn by assumption.
    reflexivity.
Qed.

Lemma loopTrace_pumpCalls adc s :
  pumpCalls (loopTrace adc s) = (2 * runsStarted (loopTrace adc s))%nat.
Proof.
  rewrite loopTrace_runs. unfold loopTrace. rewrite !pumpCalls_app.
  destruct (soilTrace_counts adc (afterTick s)) as (_ & H1 & _).
  rewrite H1.
  assert (H2 : pumpCalls (levelTrace adc (afterSoil adc (afterTick s))) = 0%nat).
  { apply levelTrace_counts; [intros [] v; simpl; congruence | reflexivity]. }
  rewrite H2.
  assert (H3 : pumpCalls (scheduleTrace (beforeSchedule adc s)) =
               (if schedStarts (beforeSchedule adc s) then 2 else 0)%nat).
  { unfold scheduleTrace. destruct (schedStarts _); [| reflexivity].
    apply runTrace_counts. }
  rewrite H3.
  destruct (autoStarts adc (afterTick s)), (schedStarts (beforeSchedule adc s));
    reflexivity.
Qed.

(** C3. One call of [loop] always returns.  When the schedule is off, the
    pump is idle and the soil reading is due, the call waters if and only if
    the reading is strictly above the threshold.  If it is, the output of
    the call is the soil notification followed by the whole run: the relay
    written to its on level, the pump state 1 notified, "Pump ON", then
    after the delay of [durationSec] the relay written to its off level,
    the pump state 0 notified, "Pump OFF" and the completion line; nothing
    after it writes the relay, and the call returns [durationSec] seconds
    and 50 ms later with the pump flag false.  If it is not, the relay is
    not written and [setPump] is not called at all.  With the schedule on,
    the automatic watering never happens, with the schedule off the
    scheduled watering never happens, so one call never does both, starts
    at most one run and writes the relay at most twice. *)
Theorem threshold_trigger (adc : Z -> Z -> Z) (s : State) :
  exists s' tr,
    loop adc s = Done tt s' tr /\
    (scheduleOn (cfg s) = false -> pumpRunning s = false -> soilDue s = true ->
       let r := soilReading adc s in
       let told := fun line : string =>
         ESerial line ::
         (if clientConnected s
          then [ESetValue LogChr (Text line); ENotify LogChr] else []) in
       let run :=
         [ EDigitalWrite RELAY_PIN (negb (relayActiveLow (cfg s)));
           ESetValue StateChr (Bytes [1; flowPct (cfg s)]); ENotify StateChr ] ++
         told "Pump ON" ++
         [ EDigitalWrite RELAY_PIN (relayActiveLow (cfg s));
           ESetValue StateChr (Bytes [0; flowPct (cfg s)]); ENotify StateChr ] ++
         told "Pump OFF" ++ told "Auto watering completed" in
       (runsStarted tr = 1%nat <-> threshold (cfg s) < r) /\
       (runsStarted tr = 0%nat <-> r <= threshold (cfg s)) /\
       (threshold (cfg s) < r ->
        exists post,
          tr = ESetValue SoilChr (Bytes [lowByte r; highByte r]) ::
               ENotify SoilChr :: run ++ post /\
          relayWrites post = 0%nat /\
          pumpRunning s' = false /\
          clock s' = clock s + u32 (durationSec (cfg s) * 1000) + 50) /\
       (r <= threshold (cfg s) ->
        relayWrites tr = 0%nat /\ pumpCalls tr = 0%nat /\
        pumpRunning s' = false /\ clock s' = clock s + 50)) /\
    (scheduleOn (cfg s) = true -> logged "Auto watering completed" tr = false) /\
    (scheduleOn (cfg s) = false -> logged "Scheduled watering done" tr = false) /\
    logged "Auto watering completed" tr && logged "Scheduled watering done" tr
      = false /\
    (runsStarted tr <= 1)%nat /\
    (relayWrites tr <= 2)%nat.
Proof.
  exists (afterLoop adc s), (loopTrace adc s). split; [apply loop_run |].
  destruct (loopTrace_logged adc s) as [La Ls]. simpl in La, Ls.
  rewrite La, Ls, autoStarts_afterTick.
  destruct (beforeSchedule_frame adc s) as (Hcfg & _).
  assert (Hoff : scheduleOn (cfg s) = false ->
                 schedStarts (beforeSchedule adc s) = false).
  { intros H. apply schedStarts_scheduleOff. now rewrite Hcfg. }
  pose proof (loopTrace_runs_le adc s) as Hle.
  split; [| split; [| split; [| split; [| split]]]].
  - intros Hs Hp Hd r told run.
    pose proof (loopTrace_runs adc s) as Hruns.
    pose proof (relayWrites_loopTrace adc s) as Hrelay.
    pose proof (loopTrace_pumpCalls adc s) as Hcalls.
    destruct (afterLoop_keeps adc s) as (_ & _ & Kp & Kc).
    rewrite autoStarts_afterTick in Hruns.
    rewrite (Hoff Hs) in Hruns, Kp, Kc.
    assert (Hauto : autoStarts adc s = (threshold (cfg s) <? r)).
    { unfold autoStarts, thresholdFires. rewrite Hs, Hp, Hd. simpl.
      apply andb_true_r. }
    destruct (Z.ltb_spec (threshold (cfg s)) r) as [Hdry | Hwet].
    + rewrite Hauto in Hruns, Kp, Kc.
      split; [rewrite Hruns; split; [intros _; exact Hdry | reflexivity] |].
      split; [rewrite Hruns; split; [discriminate | lia] |].
      split; [| intros Hc; lia].
      intros _. exists (levelTrace adc (afterSoil adc (afterTick s))).
      split; [now apply loopTrace_auto |].
      split; [apply relayWrites_levelTrace |].
      split; [exact Kp | lia].
    + rewrite Hauto in Hruns, Kp, Kc. rewrite Hruns in Hrelay, Hcalls.
      split; [rewrite Hruns; split; [discriminate | lia] |].
      split; [rewrite Hruns; split; [intros _; exact Hwet | reflexivity] |].
      split; [intros Hc; lia |].
      intros _. split; [exact Hrelay |]. split; [exact Hcalls |].
      split; [now rewrite Kp, Hp | lia].
  - apply autoStarts_scheduleOn.
  - exact Hoff.
  - destruct (scheduleOn (cfg s)) eqn:E.
    + now rewrite autoStarts_scheduleOn.
    + rewrite Hoff by reflexivity. apply andb_false_r.
  - exact Hle.
  - rewrite relayWrites_loopTrace. lia.
Qed.

Lemma threshold_trigger_witness :
  exists s' tr post,
    loop scenarioAdc (set_clock 7000 scenarioState) = Done tt s' tr /\
    tr = [ ESetValue SoilChr (Bytes [196; 9]); ENotify SoilChr;
           EDigitalWrite RELAY_PIN false;
           ESetValue StateChr (Bytes [1; 100]); ENotify StateChr;
           ESerial "Pump ON";
           EDigitalWrite RELAY_PIN true;
           ESetValue StateChr (Bytes [0; 100]); ENotify StateChr;
           ESerial "Pump OFF"; ESerial "Auto watering completed" ] ++ post /\
    clock s' = 7000 + 30000 + 50.
Proof.
  destruct (threshold_trigger scenarioAdc (set_clock 7000 scenarioState))
    as (s' & tr & Hrun & Hthr & _).
  destruct Hthr as (_ & _ & Hdry & _); [reflexivity | reflexivity | reflexivity |].
  destruct Hdry as (post & Htr & _ & _ & Hclock); [vm_compute; reflexivity |].
  exists s', tr, post. split; [exact Hrun |]. split; [exact Htr | exact Hclock].
Defined.

(** The scenario of the defaults: with readings 1000, 1000 and 2500 at three
    successive evaluations, the first two start nothing and the third starts
    a run.  The evaluations fall in calls 1, 22 and 43 of [loop]. *)
Lemma dry_spell_scenario :
  runsStarted (traceOf (loops scenarioAdc 1 scenarioState)) = 0%nat /\
  runsStarted (traceOf (loops scenarioAdc 22 scenarioState)) = 0%nat /\
  runsStarted (traceOf (loops scenarioAdc 42 scenarioState)) = 0%nat /\
  runsStarted (traceOf (loops scenarioAdc 43 scenarioState)) = 1%nat /\
  countEvents (fun e => match e with ENotify SoilChr => true | _ => false end)
    (traceOf (loops scenarioAdc 43 scenarioState)) = 3%nat.
Proof. vm_compute. repeat split. Qed.

(** ** Claims on commands and on runs in progress *)

Lemma set_pumpRunning_same s : set_pumpRunning (pumpRunning s) s = s.
Proof. now destruct s. Qed.

Lemma command_ON adc fuel s :
  CmdCallbacks_onWrite adc fuel "ON" s =
  Done tt (set_pumpRunning true s) (pumpTrace true s).
Proof. unfold CmdCallbacks_onWrite. simpl. apply setPump_run. Qed.

Lemma command_OFF adc fuel s :
  CmdCallbacks_onWrite adc fuel "OFF" s =
  Done tt (set_pumpRunning false s) (pumpTrace false s).
Proof. unfold CmdCallbacks_onWrite. simpl. apply setPump_run. Qed.

Lemma pumpTrace_calls on s : pumpCalls (pumpTrace on s) = 1%nat.
Proof.
  unfold pumpTrace, logTrace, pumpCalls.
  destruct (clientConnected s); reflexivity.
Qed.

Lemma runEndTrace_counts k s :
  pumpCalls (runEndTrace k s) = 1%nat /\
  runsStarted (runEndTrace k s) = 0%nat /\
  logged (completionLine k) (runEndTrace k s) = true.
Proof.
  unfold runEndTrace, pumpTrace, logTrace, pumpCalls, runsStarted, logged.
  destruct (clientConnected s), k; repeat split.
Qed.

(** C1, as the sketch has it.  While the pump is running, a soil reading
    above the threshold is ignored: the soil block returns without a call of
    [setPump], and only the time stamp of the reading changes.  An ON
    command leaves the state as it is but does call [setPump(true)] once
    more: the relay is written and the pump state notified again. *)
Theorem triggers_while_running (adc : Z -> Z -> Z) (fuel : nat) (s : State) :
  pumpRunning s = true ->
  (autoStarts adc s = false /\
   exists tr,
     soilBlock adc s =
       Done tt (if soilDue s then set_lastSoilTime (u32 (clock s)) s else s) tr /\
     pumpCalls tr = 0%nat) /\
  (CmdCallbacks_onWrite adc fuel "ON" s = Done tt s (pumpTrace true s) /\
   pumpCalls (pumpTrace true s) = 1%nat /\
   In (EDigitalWrite RELAY_PIN (negb (relayOffLevel (cfg s)))) (pumpTrace true s)).
Proof.
  intros Hrun.
  assert (Hno : autoStarts adc s = false).
  { unfold autoStarts, thresholdFires. rewrite Hrun. simpl.
    now rewrite !andb_false_r. }
  split; [split; [exact Hno |] | split; [| split]].
  - exists (soilTrace adc s). split.
    + rewrite soilBlock_run. f_equal.
      unfold afterSoil. unfold autoStarts in Hno.
      destruct (soilDue s); [| reflexivity].
      simpl in Hno. now rewrite Hno.
    + destruct (soilTrace_counts adc s) as (_ & H & _). now rewrite H, Hno.
  - rewrite command_ON. f_equal.
    rewrite <- Hrun. apply set_pumpRunning_same.
  - apply pumpTrace_calls.
  - unfold pumpTrace, relayOffLevel. left.
    now destruct (relayActiveLow (cfg s)).
Qed.

Lemma triggers_while_running_witness :
  CmdCallbacks_onWrite scenarioAdc 0 "ON" runningState =
    Done tt runningState (pumpTrace true runningState) /\
  pumpCalls (pumpTrace true runningState) = 1%nat.
Proof.
  destruct (triggers_while_running scenarioAdc 0 runningState) as (_ & H1 & H2 & _).
  - reflexivity.
  - split; [exact H1 | exact H2].
Defined.

(** C1 as stated fails.  With the pump running, the ON command calls
    [setPump] again, and the schedule window starts a run although the pump
    runs: [setPump] is called twice more and the pump is left idle. *)
Lemma running_is_not_protected :
  pumpRunning runningState = true /\
  pumpCalls (traceOf (CmdCallbacks_onWrite scenarioAdc 0 "ON" runningState)) = 1%nat /\
  pumpCalls (traceOf (loop scenarioAdc runningState)) = 2%nat /\
  pumpRunning (stateOf (loop scenarioAdc runningState) runningState) = false /\
  wateredToday (stateOf (loop scenarioAdc runningState) runningState) = true.
Proof. repeat split. Qed.

Lemma runRest_run k s :
  (runDelay;; runEnd k) s =
  Done tt
    (afterRunEnd k (set_clock (clock s + u32 (durationSec (cfg s) * 1000)) s))
    (runEndTrace k s).
Proof.
  unfold runDelay, delay. cbn -[runEnd u32 pumpTrace].
  rewrite runEnd_run. reflexivity.
Qed.

(** A run of the loop is its beginning, then the wake-up of the loop task. *)
Lemma run_in_two_steps k s :
  sleeping s = None ->
  exists s1 tr1 s2 tr2,
    fallAsleep k s = Some (s1, tr1) /\ wake s1 = Some (s2, tr2) /\
    timedRun k (mem s) = Done tt (mem s2) (tr1 ++ tr2) /\ sleeping s2 = None.
Proof.
  intros Hs. do 4 eexists. split; [| split; [| split]].
  - unfold fallAsleep, step, runBegin. rewrite Hs, setPump_run. reflexivity.
  - unfold wake, step. cbn [sleeping mem]. rewrite runRest_run. reflexivity.
  - rewrite timedRun_run. reflexivity.
  - reflexivity.
Qed.

(** C2, as the sketch has it.  From every state with the pump running, the
    OFF command returns with [pumpRunning] false, the relay written to its
    off level and the pump state notified, and nothing else changed.  The
    loop task stays where it is: if it is inside the delay of a run, the
    completion of that run is still executed when the delay is over, with
    one more [setPump(false)] and the completion line of the run. *)
Theorem off_stops_pump (adc : Z -> Z -> Z) (fuel : nat) (sys : System) :
  pumpRunning (mem sys) = true ->
  let sys1 := mkSystem (set_pumpRunning false (mem sys)) (sleeping sys) in
  bleCommand adc fuel "OFF" sys = Some (sys1, pumpTrace false (mem sys)) /\
  pumpRunning (mem sys1) = false /\
  In (EDigitalWrite RELAY_PIN (relayOffLevel (cfg (mem sys))))
     (pumpTrace false (mem sys)) /\
  In (ESetValue StateChr (Bytes [0; flowPct (cfg (mem sys))]))
     (pumpTrace false (mem sys)) /\
  forall k, sleeping sys = Some k ->
    exists sys2 tr2,
      wake sys1 = Some (sys2, tr2) /\
      pumpCalls tr2 = 1%nat /\
      logged (completionLine k) tr2 = true /\
      wateredToday (mem sys2) =
        match k with AutoRun => wateredToday (mem sys) | SchedRun => true end.
Proof.
  intros Hrun sys1. split; [| split; [| split; [| split]]].
  - unfold bleCommand, step. now rewrite command_OFF.
  - reflexivity.
  - unfold pumpTrace, relayOffLevel. left.
    now destruct (relayActiveLow (cfg (mem sys))).
  - unfold pumpTrace. right. left. reflexivity.
  - intros k Hk. unfold wake, step, sys1. cbn [sleeping mem]. rewrite Hk.
    rewrite runRest_run. do 2 eexists. split; [reflexivity |].
    destruct (runEndTrace_counts k (set_pumpRunning false (mem sys)))
      as (H1 & _ & H3).
    split; [exact H1 | split; [exact H3 |]].
    now destruct k.
Qed.

Lemma off_stops_pump_witness :
  bleCommand scenarioAdc 0 "OFF" wateringSystem =
    Some (mkSystem (set_pumpRunning false (mem wateringSystem)) (Some AutoRun),
          pumpTrace false (mem wateringSystem)).
Proof.
  apply (off_stops_pump scenarioAdc 0 wateringSystem). reflexivity.
Defined.

(** C2 as stated fails.  The OFF command switches the pump off, but the run
    in progress is not cancelled: the loop task is still inside its delay,
    and at its end it calls [setPump(false)] once more and logs the
    completion. *)
Lemma off_leaves_completion_pending :
  pumpRunning (mem wateringSystem) = true /\
  sleeping wateringSystem = Some AutoRun /\
  bleCommand scenarioAdc 0 "OFF" wateringSystem =
    Some (stoppedSystem,
          [ EDigitalWrite RELAY_PIN true;
            ESetValue StateChr (Bytes [0; 100]);
            ENotify StateChr;
            ESerial "Pump OFF" ]) /\
  pumpRunning (mem stoppedSystem) = false /\
  sleeping stoppedSystem = Some AutoRun /\
  option_map snd (wake stoppedSystem) =
    Some [ EDigitalWrite RELAY_PIN true;
           ESetValue StateChr (Bytes [0; 100]);
           ENotify StateChr;
           ESerial "Pump OFF";
           ESerial "Auto watering completed" ].
Proof. repeat split. Qed.

(** ** The schedule window *)

Lemma afterTick_cases s :
  0 <= secondsToday s < 86400 ->
  (secondsToday (afterTick s) = secondsToday s /\
   wateredToday (afterTick s) = wateredToday s) \/
  (secondsToday (afterTick s) = (secondsToday s + 1) mod 86400 /\
   wateredToday (afterTick s) =
     if (secondsToday s + 1) mod 86400 <? 10 then false else wateredToday s).
Proof.
  intros Hsec. unfold afterTick. destruct (tickDue s); [right | left; split; reflexivity].
  rewrite (u32_small (secondsToday s + 1)) by lia.
  destruct (_ <? 10); split; reflexivity.
Qed.

Lemma set_clock_frame t s :
  cfg (set_clock t s) = cfg s /\
  secondsToday (set_clock t s) = secondsToday s /\
  wateredToday (set_clock t s) = wateredToday s.
Proof. repeat split. Qed.

Lemma afterLoop_fields adc s :
  cfg (afterLoop adc s) = cfg s /\
  secondsToday (afterLoop adc s) = secondsToday (afterTick s) /\
  wateredToday (afterLoop adc s) =
    schedStarts (beforeSchedule adc s) || wateredToday (afterTick s).
Proof.
  destruct (afterSchedule_frame (beforeSchedule adc s)) as (H1 & H2 & _ & H4).
  destruct (beforeSchedule_frame adc s) as (B1 & B2 & B3).
  destruct (set_clock_frame
              (clock (afterSchedule (beforeSchedule adc s)) + u32 50)
              (afterSchedule (beforeSchedule adc s))) as (C1 & C2 & C3).
  unfold afterLoop.
  rewrite C1, C2, C3, H1, H2, H4, B1, B2, B3.
  split; [reflexivity | split; reflexivity].
Qed.

Lemma schedStarts_atSeven s :
  dailyAtSeven (cfg s) ->
  schedStarts s =
  negb (wateredToday s) && (25200 <=? secondsToday s) && (secondsToday s <? 25220).
Proof.
  intros (Hon & Hh & Hm). unfold schedStarts, scheduleFires, windowStart.
  rewrite Hon, Hh, Hm. reflexivity.
Qed.

(** One call of [loop] under the 07:00 schedule: the counter stays or
    advances by one, and a run starts exactly when the schedule block finds
    the counter in the window with [wateredToday] false. *)
Lemma loop_atSeven adc s :
  dailyAtSeven (cfg s) ->
  0 <= secondsToday s < 86400 ->
  exists fires : bool,
    fires = negb (wateredToday (afterTick s)) &&
            (25200 <=? secondsToday (afterLoop adc s)) &&
            (secondsToday (afterLoop adc s) <? 25220) /\
    dailyAtSeven (cfg (afterLoop adc s)) /\
    0 <= secondsToday (afterLoop adc s) < 86400 /\
    (secondsToday (afterLoop adc s) = secondsToday s \/
     secondsToday (afterLoop adc s) = (secondsToday s + 1) mod 86400) /\
    wateredToday (afterLoop adc s) = fires || wateredToday (afterTick s) /\
    runsStarted (loopTrace adc s) = (if fires then 1 else 0)%nat.
Proof.
  intros Hseven Hsec.
  destruct (afterLoop_fields adc s) as (Hcfg & Hs & Hw).
  destruct (beforeSchedule_frame adc s) as (B1 & B2 & B3).
  exists (schedStarts (beforeSchedule adc s)). split.
  { rewrite schedStarts_atSeven by now rewrite B1. now rewrite B2, B3, Hs. }
  split; [now rewrite Hcfg |].
  assert (Hstep : secondsToday (afterLoop adc s) = secondsToday s \/
                  secondsToday (afterLoop adc s) = (secondsToday s + 1) mod 86400).
  { rewrite Hs.
    destruct (afterTick_cases s Hsec) as [[H _] | [H _]]; [now left | now right]. }
  split.
  - destruct Hstep as [H | H]; rewrite H; [lia |].
    apply Z.mod_pos_bound. lia.
  - split; [exact Hstep |]. split; [exact Hw |].
    rewrite loopTrace_runs, autoStarts_afterTick.
    rewrite autoStarts_scheduleOn by apply Hseven. apply Nat.add_0_l.
Qed.

Lemma afterLoops_S adc n s :
  afterLoops adc (S n) s = afterLoops adc n (afterLoop adc s).
Proof. reflexivity. Qed.

Lemma loopsTrace_S adc n s :
  loopsTrace adc (S n) s = loopTrace adc s ++ loopsTrace adc n (afterLoop adc s).
Proof. reflexivity. Qed.

Lemma sameDay_S adc n s :
  sameDay adc (S n) s = true ->
  secondsToday s <= secondsToday (afterLoop adc s) /\
  sameDay adc n (afterLoop adc s) = true.
Proof.
  intros H. change (sameDay adc (S n) s) with
    ((secondsToday s <=? secondsToday (afterLoop adc s)) &&
     sameDay adc n (afterLoop adc s)) in H.
  apply andb_true_iff in H as [H1 H2]. split; [now apply Z.leb_le | exact H2].
Qed.

(** The calls of [loop] keep the schedule and the range of the counter. *)
Lemma afterLoops_atSeven adc n : forall s,
  dailyAtSeven (cfg s) -> 0 <= secondsToday s < 86400 ->
  dailyAtSeven (cfg (afterLoops adc n s)) /\
  0 <= secondsToday (afterLoops adc n s) < 86400.
Proof.
  induction n as [| n IH]; intros s Hseven Hsec; [now split |].
  rewrite afterLoops_S.
  destruct (loop_atSeven adc s Hseven Hsec) as (fires & _ & Hc & Hr & _).
  now apply IH.
Qed.

(** Once watered, no run is started for the rest of the day. *)
Lemma watered_no_run adc n : forall s,
  dailyAtSeven (cfg s) ->
  wateredToday s = true ->
  10 <= secondsToday s < 86400 ->
  sameDay adc n s = true ->
  runsStarted (loopsTrace adc n s) = 0%nat /\
  wateredToday (afterLoops adc n s) = true /\
  secondsToday s <= secondsToday (afterLoops adc n s).
Proof.
  induction n as [| n IH]; intros s Hseven Hw Hsec Hday.
  - split; [reflexivity |]. split; [assumption |]. apply Z.le_refl.
  - apply sameDay_S in Hday as [Hle Hday].
    rewrite afterLoops_S, loopsTrace_S, runsStarted_app.
    destruct (loop_atSeven adc s Hseven)
      as (fires & Hfires & Hc' & Hr' & Hstep & Hw' & Hruns); [lia |].
    assert (Htick : wateredToday (afterTick s) = true).
    { destruct (afterTick_cases s) as [[_ H] | [Hs H]]; [lia | congruence |].
      rewrite H, Hw.
      destruct (afterLoop_fields adc s) as (_ & Hs' & _).
      rewrite <- Hs, <- Hs'.
      destruct (Z.ltb_spec (secondsToday (afterLoop adc s)) 10); [lia | reflexivity]. }
    specialize (IH (afterLoop adc s)).
    rewrite Hruns. clear Hruns.
    set (s1 := afterLoop adc s) in *. clearbody s1.
    rewrite Htick in Hfires, Hw'. subst fires.
    rewrite orb_true_r in Hw'.
    destruct IH as (I1 & I2 & I3); try assumption; [lia |].
    rewrite I1. split; [reflexivity |]. split; [assumption | lia].
Qed.

(** Before the window nothing is started; the call that brings the counter
    to the start of the window starts one run. *)
Lemma first_pass adc n : forall s,
  dailyAtSeven (cfg s) ->
  wateredToday s = false ->
  0 <= secondsToday s < 25200 ->
  sameDay adc n s = true ->
  (secondsToday (afterLoops adc n s) < 25200 /\
   runsStarted (loopsTrace adc n s) = 0%nat /\
   wateredToday (afterLoops adc n s) = false) \/
  (25200 <= secondsToday (afterLoops adc n s) /\
   runsStarted (loopsTrace adc n s) = 1%nat /\
   wateredToday (afterLoops adc n s) = true).
Proof.
  induction n as [| n IH]; intros s Hseven Hw Hsec Hday.
  - left. split; [apply Hsec |]. split; [reflexivity | assumption].
  - apply sameDay_S in Hday as [Hle Hday].
    rewrite afterLoops_S, loopsTrace_S, runsStarted_app.
    destruct (loop_atSeven adc s Hseven)
      as (fires & Hfires & Hc' & Hr' & Hstep & Hw' & Hruns); [lia |].
    assert (Htick : wateredToday (afterTick s) = false).
    { destruct (afterTick_cases s) as [[_ H] | [_ H]]; [lia | congruence |].
      rewrite H, Hw. now destruct (_ <? 10). }
    rewrite (Z.mod_small (secondsToday s + 1)) in Hstep by lia.
    specialize (IH (afterLoop adc s)).
    pose proof (watered_no_run adc n (afterLoop adc s)) as Hrest.
    rewrite Hruns. clear Hruns.
    set (s1 := afterLoop adc s) in *. clearbody s1.
    rewrite Htick in Hfires, Hw'. rewrite orb_false_r in Hw'.
    rewrite andb_true_l in Hfires.
    destruct (Z_lt_le_dec (secondsToday s1) 25200) as [Hout | Hin].
    + assert (Hge : (25200 <=? secondsToday s1) = false)
        by (apply Z.leb_gt; exact Hout).
      rewrite Hge in Hfires. rewrite andb_false_l in Hfires. subst fires.
      rewrite Nat.add_0_l. apply IH; try assumption. lia.
    + assert (Hge : (25200 <=? secondsToday s1) = true)
        by (apply Z.leb_le; exact Hin).
      assert (Hlt : (secondsToday s1 <? 25220) = true)
        by (apply Z.ltb_lt; lia).
      rewrite Hge, Hlt in Hfires. rewrite andb_true_l in Hfires. subst fires.
      destruct Hrest as (W1 & W2 & W3); try assumption; [lia |].
      right. rewrite W1. split; [lia |]. split; [reflexivity | assumption].
Qed.

(** The relay is written twice for every run, over any number of calls. *)
Lemma relayWrites_loopsTrace adc n : forall s,
  relayWrites (loopsTrace adc n s) = (2 * runsStarted (loopsTrace adc n s))%nat.
Proof.
  induction n as [| n IH]; intros s; [reflexivity |].
  rewrite loopsTrace_S, relayWrites_app, runsStarted_app, IH,
    relayWrites_loopTrace.
  lia.
Qed.

(** With the schedule on, calls of [loop] that start one run in all output
    the events of one scheduled run, and write the relay nowhere else. *)
Lemma single_scheduled_run adc n : forall s,
  scheduleOn (cfg s) = true ->
  runsStarted (loopsTrace adc n s) = 1%nat ->
  exists pre post,
    loopsTrace adc n s =
      pre ++ runEvents SchedRun (cfg s) (clientConnected s) ++ post /\
    relayWrites pre = 0%nat /\ relayWrites post = 0%nat.
Proof.
  induction n as [| n IH]; intros s Hon Hone; [discriminate |].
  rewrite loopsTrace_S. rewrite loopsTrace_S, runsStarted_app in Hone.
  pose proof (loopTrace_runs adc s) as Hruns.
  rewrite autoStarts_afterTick, autoStarts_scheduleOn, Nat.add_0_l in Hruns
    by assumption.
  pose proof (relayWrites_loopTrace adc s) as Hrelay.
  pose proof (relayWrites_loopsTrace adc n (afterLoop adc s)) as Hrest.
  destruct (afterLoop_fields adc s) as (Fc & _).
  destruct (afterLoop_keeps adc s) as (_ & Kn & _).
  specialize (IH (afterLoop adc s)). rewrite Fc, Kn in IH.
  destruct (schedStarts (beforeSchedule adc s)) eqn:Hfires.
  - destruct (loopTrace_sched adc s Hfires Hon) as (pre & Hpre & Hz).
    exists pre, (loopsTrace adc n (afterLoop adc s)).
    split; [rewrite Hpre; symmetry; apply app_assoc |].
    split; [exact Hz |]. rewrite Hrest. lia.
  - rewrite Hruns in Hone, Hrelay. rewrite Nat.add_0_l in Hone.
    destruct (IH Hon Hone) as (pre & post & Htr & Hz1 & Hz2).
    exists (loopTrace adc s ++ pre), post.
    split; [rewrite Htr; apply app_assoc |].
    split; [| exact Hz2].
    rewrite relayWrites_app, Hrelay, Hz1. reflexivity.
Qed.

(** C6. The schedule fires once a day.  With the schedule on for 07:00, start
    before the window with [wateredToday] false and call [loop] any number of
    times within the day.  The calls return; as long as [secondsToday] is
    below 25200 no run has been started and the relay has not been written,
    and once it has reached the window exactly one run has been started,
    however far the counter has gone since, and [wateredToday] is true: the
    output holds the events of one scheduled run, the relay written to its
    on level, the pump state 1 notified, "Pump ON", the relay written to its
    off level, the pump state 0 notified, "Pump OFF" and
    "Scheduled watering done", and the relay is written nowhere before or
    after them.  From there, even with the counter put back to any second of
    the day from 10 on, further calls within the day start no run and do not
    write the relay: a second pass through the window is without effect.
    (The sketch does not look at [pumpRunning] here, so the statement needs
    no assumption on it.) *)
Theorem schedule_once_per_day (adc : Z -> Z -> Z) (n : nat) (s : State) :
  dailyAtSeven (cfg s) ->
  wateredToday s = false ->
  0 <= secondsToday s < 25200 ->
  sameDay adc n s = true ->
  exists s' tr,
    loops adc n s = Done tt s' tr /\
    (secondsToday s' < 25200 ->
       runsStarted tr = 0%nat /\ wateredToday s' = false /\
       relayWrites tr = 0%nat) /\
    (25200 <= secondsToday s' ->
       runsStarted tr = 1%nat /\ wateredToday s' = true /\
       (forall (t : Z) (m : nat),
          10 <= t < 86400 ->
          sameDay adc m (set_secondsToday t s') = true ->
          runsStarted (traceOf (loops adc m (set_secondsToday t s'))) = 0%nat /\
          relayWrites (traceOf (loops adc m (set_secondsToday t s'))) = 0%nat) /\
       let told := fun line : string =>
         ESerial line ::
         (if clientConnected s
          then [ESetValue LogChr (Text line); ENotify LogChr] else []) in
       let run :=
         [ EDigitalWrite RELAY_PIN (negb (relayActiveLow (cfg s)));
           ESetValue StateChr (Bytes [1; flowPct (cfg s)]); ENotify StateChr ] ++
         told "Pump ON" ++
         [ EDigitalWrite RELAY_PIN (relayActiveLow (cfg s));
           ESetValue StateChr (Bytes [0; flowPct (cfg s)]); ENotify StateChr ] ++
         told "Pump OFF" ++ told "Scheduled watering done" in
       exists pre post,
         tr = pre ++ run ++ post /\
         relayWrites pre = 0%nat /\ relayWrites post = 0%nat).
Proof.
  intros Hseven Hw Hsec Hday.
  exists (afterLoops adc n s), (loopsTrace adc n s).
  split; [apply loops_run |].
  destruct (afterLoops_atSeven adc n s Hseven) as (Hc & Hr); [lia |].
  pose proof (relayWrites_loopsTrace adc n s) as Hrelay.
  destruct (first_pass adc n s Hseven Hw Hsec Hday)
    as [(A & B & C) | (A & B & C)].
  - split; [intros _ | intros Hge; lia].
    split; [exact B |]. split; [exact C |]. rewrite Hrelay, B. reflexivity.
  - split; [intros Hlt; lia | intros _].
    split; [exact B |]. split; [exact C |]. split.
    + intros t m Ht Hm. rewrite loops_run.
      change (traceOf (Done tt ?x ?y)) with y.
      rewrite relayWrites_loopsTrace.
      destruct (watered_no_run adc m (set_secondsToday t (afterLoops adc n s)))
        as (W & _); try assumption.
      rewrite W. split; reflexivity.
    + intros told run. apply single_scheduled_run; [apply Hseven | exact B].
Qed.

Lemma schedule_once_per_day_witness :
  exists s' tr pre post,
    loops scenarioAdc 3 beforeWindow = Done tt s' tr /\
    runsStarted tr = 1%nat /\ wateredToday s' = true /\
    relayWrites (traceOf (loops scenarioAdc 3 (set_secondsToday 25199 s'))) = 0%nat /\
    tr = pre ++
         [ EDigitalWrite RELAY_PIN false;
           ESetValue StateChr (Bytes [1; 100]); ENotify StateChr;
           ESerial "Pump ON";
           EDigitalWrite RELAY_PIN true;
           ESetValue StateChr (Bytes [0; 100]); ENotify StateChr;
           ESerial "Pump OFF"; ESerial "Scheduled watering done" ] ++ post /\
    relayWrites pre = 0%nat /\ relayWrites post = 0%nat.
Proof.
  destruct (schedule_once_per_day scenarioAdc 3 beforeWindow)
    as (s' & tr & Hrun & _ & Hin).
  - split; [reflexivity | split; reflexivity].
  - reflexivity.
  - vm_compute; split; congruence.
  - vm_compute; reflexivity.
  - assert (Hs : s' = afterLoops scenarioAdc 3 beforeWindow).
    { rewrite loops_run in Hrun. congruence. }
    destruct Hin as (H1 & H2 & H3 & H4).
    + rewrite Hs. vm_compute. discriminate.
    + destruct H4 as (pre & post & Htr & Hpre & Hpost).
      exists s', tr, pre, post. split; [exact Hrun |].
      split; [exact H1 |]. split; [exact H2 |]. split.
      * apply H3; [lia |]. rewrite Hs. vm_compute; reflexivity.
      * split; [exact Htr |]. split; [exact Hpre | exact Hpost].
Defined.

(** ** The autotune *)

Lemma u32_sub a b : u32 (u32 a - u32 b) = u32 (a - b).
Proof. unfold u32. now rewrite Zminus_mod_idemp_l, Zminus_mod_idemp_r. Qed.

Lemma i32_small z : - 2 ^ 31 <= z < 2 ^ 31 -> i32 z = z.
Proof. intros H. unfold i32. rewrite Z.mod_small; lia. Qed.

Lemma set_clock_same s : set_clock (clock s) s = s.
Proof. now destruct s. Qed.

Lemma set_clock_twice a b s : set_clock a (set_clock b s) = set_clock a s.
Proof. reflexivity. Qed.

(** One turn of the sampling loop, while the window is open. *)
Lemma sampleLoop_step adc fuel t0 sum n s :
  u32 (u32 (clock s) - t0) < 10000 ->
  sampleLoop adc (S fuel) t0 sum n s =
  match sampleLoop adc fuel t0 (u32 (sum + u16 (adc SOIL_PIN (clock s))))
          (i32 (n + 1)) (set_clock (clock s + 100) s) with
  | Done r s' tr => Done r s' tr
  | Stuck f => Stuck f
  end.
Proof.
  intros Hopen. cbn [sampleLoop]. unfold bind at 1. unfold millis at 1, gets at 1.
  destruct (Z.ltb_spec (u32 (u32 (clock s) - t0)) 10000); [| lia].
  unfold bind, analogRead, gets, delay, modify.
  change (u32 100) with 100.
  destruct (sampleLoop adc fuel t0 _ _ _); reflexivity.
Qed.

(** The loop leaves when the window is over. *)
Lemma sampleLoop_exit adc fuel t0 sum n s :
  10000 <= u32 (u32 (clock s) - t0) ->
  sampleLoop adc fuel t0 sum n s = Done (sum, n) s [].
Proof.
  intros Hover.
  destruct fuel; cbn [sampleLoop]; unfold bind, millis, gets;
    (destruct (Z.ltb_spec (u32 (u32 (clock s) - t0)) 10000); [lia | reflexivity]).
Qed.

(** With [k] turns left in the window and at least that much fuel, the
    sampling loop returns after exactly [k] samples. *)
Lemma sampleLoop_run adc k : forall fuel s c0 sum n,
  (k <= fuel)%nat -> (k <= 100)%nat ->
  clock s = c0 + 100 * (100 - Z.of_nat k) ->
  0 <= n -> n + Z.of_nat k < 2 ^ 31 ->
  sampleLoop adc fuel (u32 c0) sum n s =
  Done (sampleSum adc k (clock s) sum, n + Z.of_nat k)
       (set_clock (c0 + 10000) s) [].
Proof.
  induction k as [| k IH]; intros fuel s c0 sum n Hfuel Hk Hclock Hn Hmax.
  - rewrite sampleLoop_exit.
    + cbn [sampleSum]. rewrite Z.add_0_r.
      replace (c0 + 10000) with (clock s) by lia.
      now rewrite set_clock_same.
    + rewrite u32_sub. replace (clock s - c0) with 10000 by lia.
      rewrite u32_small; lia.
  - destruct fuel as [| fuel]; [lia |].
    rewrite sampleLoop_step.
    + rewrite (IH fuel (set_clock (clock s + 100) s) c0); try lia.
      * cbn [sampleSum]. rewrite set_clock_twice.
        rewrite i32_small by lia. do 2 f_equal. lia.
      * change (clock (set_clock (clock s + 100) s)) with (clock s + 100). lia.
      * rewrite i32_small; lia.
      * rewrite i32_small; lia.
    + rewrite u32_sub.
      replace (clock s - c0) with (100 * (100 - Z.of_nat (S k))) by lia.
      rewrite u32_small; lia.
Qed.

Lemma sampleSum_constant adc r k : forall c sum,
  (forall t, c <= t < c + 100 * Z.of_nat k -> adc SOIL_PIN t = r) ->
  0 <= r < 2 ^ 16 -> 0 <= sum -> sum + Z.of_nat k * r < 2 ^ 32 ->
  sampleSum adc k c sum = sum + Z.of_nat k * r.
Proof.
  induction k as [| k IH]; intros c sum Hconst Hr Hsum Hmax.
  - cbn [sampleSum]. lia.
  - cbn [sampleSum]. rewrite (Hconst c) by lia.
    rewrite (u16_small r) by lia.
    rewrite u32_small by nia.
    rewrite IH; try nia.
    intros t Ht. apply Hconst. lia.
Qed.

Lemma autotuneFinish_skip sum n s : n <= 0 -> autotuneFinish sum n s = Done tt s [].
Proof.
  intros Hn. unfold autotuneFinish.
  destruct (Z.ltb_spec 0 n); [lia | reflexivity].
Qed.

Lemma autotuneFinish_run sum n s :
  0 < n < 2 ^ 31 ->
  let c := set_threshold (u16 (u16 (sum / n) + 200)) (cfg s) in
  autotuneFinish sum n s =
  Done tt (set_nvs (savePrefs c (nvs s)) (set_cfg c s))
    (logTrace (clientConnected s)
       ("Autotune done → new threshold = " +:+ decimal (threshold c)) ++
     [ESetValue ConfigChr (Bytes (packConfig c)); ENotify ConfigChr]).
Proof.
  intros Hn c. unfold autotuneFinish.
  destruct (Z.ltb_spec 0 n); [| lia].
  unfold udiv. rewrite (u32_small n) by lia.
  destruct (Z.eqb_spec n 0); [lia |].
  cbn -[decimal packConfig savePrefs set_threshold Z.div String.append log].
  fold c.
  rewrite (bind_run _ _ _ _ _ _ (log_run _ _)).
  unfold bind, emit. cbn [clientConnected set_nvs set_cfg app].
  reflexivity.
Qed.

Lemma command_AUTOTUNE adc fuel s :
  CmdCallbacks_onWrite adc fuel "AUTOTUNE" s = autotune adc fuel s.
Proof. reflexivity. Qed.

(** With fuel for 100 samples the autotune returns: the window is sampled
    100 times and the threshold is the mean of the samples plus 200. *)
Lemma autotune_run adc fuel s :
  (100 <= fuel)%nat ->
  let c := set_threshold (tunedThreshold adc s) (cfg s) in
  autotune adc fuel s =
  Done tt
    (set_nvs (savePrefs c (nvs s)) (set_cfg c (set_clock (clock s + 12000) s)))
    (autotuneTrace (clientConnected s) c).
Proof.
  intros Hfuel c. unfold autotune.
  rewrite (bind_run _ _ _ _ _ _ (log_run _ s)).
  rewrite (bind_run _ _ _ _ _ _ (delay_run 2000 s)).
  change (u32 2000) with 2000.
  unfold bind at 1. unfold millis at 1, gets at 1.
  change (clock (set_clock (clock s + 2000) s)) with (clock s + 2000).
  pose proof (sampleLoop_run adc 100 fuel (set_clock (clock s + 2000) s)
                (clock s + 2000) 0 0 Hfuel (Nat.le_refl _)) as Hloop.
  change (clock (set_clock (clock s + 2000) s)) with (clock s + 2000) in Hloop.
  change (0 + Z.of_nat 100) with 100 in Hloop.
  rewrite set_clock_twice in Hloop.
  replace (clock s + 2000 + 10000) with (clock s + 12000) in Hloop by lia.
  specialize (Hloop ltac:(lia) ltac:(lia) ltac:(lia)).
  rewrite (bind_run _ _ _ _ _ _ Hloop).
  cbn [fst snd].
  rewrite autotuneFinish_run by lia.
  cbv beta iota zeta.
  change (cfg (set_clock (clock s + 12000) s)) with (cfg s).
  change (nvs (set_clock (clock s + 12000) s)) with (nvs s).
  change (clientConnected (set_clock (clock s + 12000) s)) with (clientConnected s).
  unfold autotuneTrace, c, tunedThreshold.
  rewrite !app_nil_l.
  reflexivity.
Qed.

Lemma tunedThreshold_constant adc s r :
  0 <= r -> r + 200 < 2 ^ 16 ->
  (forall t, clock s + 2000 <= t < clock s + 12000 -> adc SOIL_PIN t = r) ->
  tunedThreshold adc s = r + 200.
Proof.
  intros Hr Hmax Hconst. unfold tunedThreshold.
  rewrite (sampleSum_constant adc r 100); try lia.
  - change (Z.of_nat 100) with 100. rewrite Z.add_0_l, Z.mul_comm.
    rewrite Z.div_mul by lia.
    rewrite (u16_small r) by lia. apply u16_small. lia.
  - intros t Ht. apply Hconst. lia.
Qed.

Lemma savePrefs_threshold c (p : gmap string PrefVal) :
  savePrefs c p !! "th" = Some (PUShort (u16 (threshold c))).
Proof.
  unfold savePrefs.
  rewrite !lookup_insert_ne by discriminate.
  apply lookup_insert_eq.
Qed.

(** What [saveConfig] writes, [loadConfig] reads back. *)
Lemma loadPrefs_savePrefs c c0 (p : gmap string PrefVal) :
  representable c -> loadPrefs (savePrefs c p) c0 = c.
Proof.
  intros (Ht & Hf & Hh & Hm & Hd). destruct c as [t f h m d so ral].
  cbn [threshold flowPct startHour startMin durationSec] in *.
  unfold loadPrefs, savePrefs, getUShort, getUChar, getBool.
  cbn [threshold flowPct startHour startMin durationSec scheduleOn relayActiveLow].
  repeat (rewrite ?lookup_insert_eq; rewrite ?lookup_insert_ne by discriminate).
  rewrite !u16_small, !u8_small by assumption. reflexivity.
Qed.

(** C8. Autotune under a constant reading.  If the soil sensor reads [r]
    throughout the sampling window (from 2 s to 12 s after the command) and
    [r + 200] fits the 16-bit threshold, which holds for every reading of the
    12-bit converter, then with fuel for the 100 turns of the sampling loop
    the AUTOTUNE command returns, the threshold is exactly [r + 200] and the
    other fields of the configuration are as before, the configuration is
    written to the store, and the packed new configuration is set on the
    config characteristic and notified. *)
Theorem autotune_constant_reading (adc : Z -> Z -> Z) (fuel : nat) (s : State)
    (r : Z) :
  (100 <= fuel)%nat ->
  0 <= r -> r + 200 < 2 ^ 16 ->
  (forall t, clock s + 2000 <= t < clock s + 12000 -> adc SOIL_PIN t = r) ->
  exists s',
    CmdCallbacks_onWrite adc fuel "AUTOTUNE" s =
      Done tt s' (autotuneTrace (clientConnected s) (cfg s')) /\
    cfg s' = set_threshold (r + 200) (cfg s) /\
    threshold (cfg s') = r + 200 /\
    nvs s' = savePrefs (cfg s') (nvs s) /\
    nvs s' !! "th" = Some (PUShort (r + 200)) /\
    In (ESetValue ConfigChr (Bytes (packConfig (cfg s'))))
       (autotuneTrace (clientConnected s) (cfg s')) /\
    In (ENotify ConfigChr) (autotuneTrace (clientConnected s) (cfg s')).
Proof.
  intros Hfuel Hr Hmax Hconst.
  rewrite command_AUTOTUNE, (autotune_run adc fuel s Hfuel).
  cbv zeta. rewrite (tunedThreshold_constant adc s r Hr Hmax Hconst).
  exists (set_nvs (savePrefs (set_threshold (r + 200) (cfg s)) (nvs s))
            (set_cfg (set_threshold (r + 200) (cfg s))
               (set_clock (clock s + 12000) s))).
  change (cfg (set_nvs ?p (set_cfg ?c ?x))) with c.
  change (nvs (set_nvs ?p (set_cfg ?c ?x))) with p.
  change (nvs (set_clock ?t ?x)) with (nvs x).
  split; [reflexivity |].
  split; [reflexivity |]. split; [reflexivity |]. split; [reflexivity |].
  split.
  - rewrite savePrefs_threshold.
    change (threshold (set_threshold (r + 200) (cfg s))) with (r + 200).
    rewrite u16_small by lia. reflexivity.
  - unfold autotuneTrace. split.
    + apply in_or_app. right. apply in_or_app. right. left. reflexivity.
    + apply in_or_app. right. apply in_or_app. right. right. left. reflexivity.
Qed.

Lemma autotune_constant_reading_witness :
  exists s',
    CmdCallbacks_onWrite steadyAdc 100 "AUTOTUNE" bootState =
      Done tt s' (autotuneTrace false (cfg s')) /\
    threshold (cfg s') = 1000 + 200.
Proof.
  destruct (autotune_constant_reading steadyAdc 100 bootState 1000)
    as (s' & Hrun & _ & Hthr & _).
  - apply Nat.le_refl.
  - lia.
  - lia.
  - intros t _. reflexivity.
  - exists s'. split; [exact Hrun | exact Hthr].
Defined.

(** Beyond the range of the converter the 16-bit threshold wraps around: a
    reading of 65400 would give 64. *)
Lemma autotune_threshold_wraps :
  threshold (cfg (stateOf (autotune (fun _ _ => 65400) 100 bootState) bootState))
  = 64.
Proof. vm_compute. reflexivity. Qed.

(** C10. The division of the autotune is guarded.  For every sum and every
    count [n] of the range of [int], the statements after the sampling loop
    return without fault; with [n = 0] they divide nothing, output nothing
    and leave the whole state, the configuration with it, as it was; and
    with [n > 0] the divisor is [n] itself.  With fuel for the 100 turns of
    the sampling loop the whole AUTOTUNE command returns without fault, for
    every sensor and from every state. *)
Theorem autotune_division_guarded (adc : Z -> Z -> Z) (fuel : nat) (s : State)
    (sum n : Z) :
  - 2 ^ 31 <= n < 2 ^ 31 ->
  (exists s' tr, autotuneFinish sum n s = Done tt s' tr) /\
  (n = 0 -> autotuneFinish sum n s = Done tt s []) /\
  (0 < n -> u32 n = n /\ udiv sum (u32 n) s = Done (sum / n) s []) /\
  ((100 <= fuel)%nat ->
   exists s' tr, CmdCallbacks_onWrite adc fuel "AUTOTUNE" s = Done tt s' tr).
Proof.
  intros Hn. split; [| split; [| split]].
  - destruct (Z_le_gt_dec n 0) as [Hle | Hgt].
    + exists s, []. now apply autotuneFinish_skip.
    + do 2 eexists. apply autotuneFinish_run. lia.
  - intros H0. apply autotuneFinish_skip. lia.
  - intros Hpos. rewrite u32_small by lia. split; [reflexivity |].
    unfold udiv. destruct (Z.eqb_spec n 0); [lia | reflexivity].
  - intros Hfuel. rewrite command_AUTOTUNE, (autotune_run adc fuel s Hfuel).
    do 2 eexists. reflexivity.
Qed.

Lemma autotune_division_guarded_witness :
  autotuneFinish 0 0 bootState = Done tt bootState [].
Proof.
  apply (autotune_division_guarded steadyAdc 100 bootState 0 0).
  - lia.
  - reflexivity.
Defined.

(** * Further properties of the sketch *)

(** ** The store *)

Lemma savePrefs_other c (p : gmap string PrefVal) k :
  k ∉ storeKeys -> savePrefs c p !! k = p !! k.
Proof.
  intros Hk. unfold storeKeys in Hk.
  repeat (apply not_elem_of_cons in Hk as [? Hk]).
  unfold savePrefs. now rewrite !lookup_insert_ne by congruence.
Qed.

Lemma savePrefs_twice c (p : gmap string PrefVal) :
  savePrefs c (savePrefs c p) = savePrefs c p.
Proof.
  apply map_eq. intros k. unfold savePrefs.
  rewrite !lookup_insert. repeat case_decide; reflexivity.
Qed.

(** X1. What [saveConfig] stores, [loadConfig] restores: for a configuration
    that fits its widths, saving it and then loading into any other
    configuration (as after a restart) gives the saved one back. *)
Theorem saved_config_is_loaded (s : State) (c0 : Config) :
  representable (cfg s) ->
  exists s1 s2,
    saveConfig s = Done tt s1 [] /\
    loadConfig (set_cfg c0 s1) = Done tt s2 [] /\
    cfg s2 = cfg s.
Proof.
  intros Hrep. do 2 eexists. split; [reflexivity |]. split; [reflexivity |].
  cbn [cfg nvs set_cfg set_nvs]. now apply loadPrefs_savePrefs.
Qed.

Lemma saved_config_is_loaded_witness :
  exists s1 s2,
    saveConfig runningState = Done tt s1 [] /\
    loadConfig (set_cfg defaultConfig s1) = Done tt s2 [] /\
    cfg s2 = scheduledConfig.
Proof.
  apply (saved_config_is_loaded runningState defaultConfig).
  unfold representable. simpl. lia.
Defined.

Lemma set_cfg_same s : set_cfg (cfg s) s = s.
Proof. now destruct s. Qed.

Lemma loadPrefs_missing (p : gmap string PrefVal) c :
  (forall k, k ∈ storeKeys -> p !! k = None) -> loadPrefs p c = c.
Proof.
  intros Hnone. unfold loadPrefs, getUShort, getUChar, getBool.
  rewrite !Hnone by (unfold storeKeys; set_solver).
  now destruct c.
Qed.

(** X2. Missing keys: when the store holds none of the seven keys (a device
    that was never configured), [loadConfig] returns with the state, and so
    the configuration, exactly as it was; and a store that holds only the
    threshold changes the threshold and no other field. *)
Theorem loadConfig_missing_keys (s : State) :
  (forall k, k ∈ storeKeys -> nvs s !! k = None) ->
  loadConfig s = Done tt s [] /\
  forall v, loadPrefs (<["th" := PUShort v]> (nvs s)) (cfg s) =
            set_threshold v (cfg s).
Proof.
  intros Hnone. split.
  - unfold loadConfig, modify. rewrite loadPrefs_missing by assumption.
    now rewrite set_cfg_same.
  - intros v. unfold loadPrefs, getUShort, getUChar, getBool.
    rewrite lookup_insert_eq, !lookup_insert_ne by discriminate.
    rewrite !Hnone by (unfold storeKeys; set_solver).
    reflexivity.
Qed.

Lemma loadConfig_missing_keys_witness :
  loadConfig bootState = Done tt bootState [].
Proof.
  apply (loadConfig_missing_keys bootState).
  intros k _. apply lookup_empty.
Defined.

(** X3. [saveConfig] writes its seven keys and nothing else: every other key
    of the store keeps its entry, the configuration and the rest of the
    state are untouched, nothing is output, and saving a second time changes
    nothing at all. *)
Theorem saveConfig_store (s : State) :
  exists s1,
    saveConfig s = Done tt s1 [] /\
    s1 = set_nvs (nvs s1) s /\
    (forall k, k ∉ storeKeys -> nvs s1 !! k = nvs s !! k) /\
    (forall k, k ∈ storeKeys -> is_Some (nvs s1 !! k)) /\
    saveConfig s1 = Done tt s1 [].
Proof.
  eexists. split; [reflexivity |]. cbn [nvs set_nvs cfg].
  split; [reflexivity |]. split; [| split].
  - intros k Hk. now apply savePrefs_other.
  - intros k Hk. unfold storeKeys in Hk. unfold savePrefs.
    repeat (apply elem_of_cons in Hk as [-> | Hk]);
      [| | | | | | | now apply elem_of_nil in Hk];
      rewrite ?lookup_insert_eq;
      repeat (rewrite lookup_insert_ne by discriminate; rewrite ?lookup_insert_eq);
      eexists; reflexivity.
  - unfold saveConfig, modify. cbn [nvs set_nvs cfg].
    now rewrite savePrefs_twice.
Qed.

Lemma saveConfig_store_witness :
  exists s1,
    saveConfig bootState = Done tt s1 [] /\
    is_Some (nvs s1 !! "th") /\
    nvs s1 !! "name" = None.
Proof.
  destruct (saveConfig_store bootState) as (s1 & Hrun & _ & Hother & Hkeys & _).
  exists s1. split; [exact Hrun |]. split.
  - apply Hkeys. unfold storeKeys. apply elem_of_cons. now left.
  - rewrite Hother; [reflexivity |].
    unfold storeKeys. intros Hin.
    repeat (apply elem_of_cons in Hin as [Hin | Hin]; [discriminate |]).
    now apply elem_of_nil in Hin.
Defined.

(** ** The configuration record, the other way round *)

Lemma b2z_range b : 0 <= b2z b < 2 ^ 8.
Proof. destruct b; simpl; lia. Qed.

(** Two bytes joined low byte first. *)
Lemma le16_value a b :
  0 <= a < 2 ^ 8 -> 0 <= b < 2 ^ 8 ->
  Z.lor a (Z.shiftl b 8) = a + 2 ^ 8 * b.
Proof.
  intros Ha Hb. rewrite <- Z.add_nocarry_lor.
  - rewrite Z.shiftl_mul_pow2 by lia. lia.
  - apply Z.bits_inj'. intros n Hn.
    rewrite Z.land_spec, Z.bits_0, Z.shiftl_spec by lia.
    destruct (Z.ltb_spec n 8) as [Hlt | Hge].
    + rewrite (Z.testbit_neg_r b) by lia. apply andb_false_r.
    + assert (Ha0 : Z.testbit a n = false).
      { destruct (Z.eq_dec a 0) as [-> | Hne]; [apply Z.bits_0 |].
        apply Z.bits_above_log2; [lia |].
        apply Z.lt_le_trans with 8; [| lia].
        apply Z.log2_lt_pow2; lia. }
      now rewrite Ha0.
Qed.

Lemma le16_split a b :
  0 <= a < 2 ^ 8 -> 0 <= b < 2 ^ 8 ->
  u8 (Z.land (u16 (Z.lor a (Z.shiftl b 8))) 255) = a /\
  u8 (Z.shiftr (u16 (Z.lor a (Z.shiftl b 8))) 8) = b.
Proof.
  intros Ha Hb. rewrite le16_value by assumption.
  rewrite u16_small by lia.
  change 255 with (Z.ones 8). rewrite Z.land_ones, Z.shiftr_div_pow2 by lia.
  assert (Hmod : (a + 2 ^ 8 * b) mod 2 ^ 8 = a).
  { replace (a + 2 ^ 8 * b) with (a + b * 2 ^ 8) by lia.
    rewrite Z.mod_add by lia. now apply Z.mod_small. }
  assert (Hdiv : (a + 2 ^ 8 * b) / 2 ^ 8 = b).
  { replace (a + 2 ^ 8 * b) with (a + b * 2 ^ 8) by lia.
    rewrite Z.div_add by lia. rewrite (Z.div_small a) by lia. lia. }
  rewrite Hmod, Hdiv. split; apply u8_small; assumption.
Qed.

Lemma byte_at_range data i : 0 <= byte_at data i < 2 ^ 8.
Proof. apply u8_range. Qed.

(** X4. Reading back what was written: packing the configuration decoded
    from any payload gives the first seven bytes of the payload back, the
    two flag bytes reduced to 0 or 1, and 0xAA in the last position,
    whatever byte 9 of the payload was. *)
Theorem pack_after_decode (data : list Z) :
  packConfig (decodeFields data) =
  [ byte_at data 0; byte_at data 1; byte_at data 2; byte_at data 3;
    byte_at data 4; byte_at data 5; byte_at data 6;
    b2z (z2b (byte_at data 7)); b2z (z2b (byte_at data 8)); 170 ].
Proof.
  unfold packConfig, decodeFields.
  cbn [threshold flowPct startHour startMin durationSec scheduleOn relayActiveLow].
  destruct (le16_split (byte_at data 0) (byte_at data 1)) as [H0 H1];
    try apply byte_at_range.
  destruct (le16_split (byte_at data 5) (byte_at data 6)) as [H5 H6];
    try apply byte_at_range.
  rewrite H0, H1, H5, H6.
  rewrite !(u8_small (byte_at _ _)) by apply byte_at_range.
  reflexivity.
Qed.

(** X5. The wire form of every configuration, also of one whose fields do
    not fit their widths: ten bytes, each between 0 and 255, the flags 0 or
    1 and the version marker 0xAA last.  The read callback sets exactly
    these bytes on the config characteristic and changes no state. *)
Theorem packConfig_format (c : Config) (s : State) :
  length (packConfig c) = 10%nat /\
  Forall (fun b => 0 <= b < 2 ^ 8) (packConfig c) /\
  nth 9 (packConfig c) 0 = 170 /\
  (nth 7 (packConfig c) 0 = 0 \/ nth 7 (packConfig c) 0 = 1) /\
  (nth 8 (packConfig c) 0 = 0 \/ nth 8 (packConfig c) 0 = 1) /\
  ConfigCallbacks_onRead s =
    Done tt s [ESetValue ConfigChr (Bytes (packConfig (cfg s)))].
Proof.
  split; [reflexivity |]. split.
  - unfold packConfig.
    repeat (apply Forall_cons; split;
            [first [apply u8_range | apply b2z_range | lia] |]).
    apply Forall_nil. exact I.
  - split; [reflexivity |]. cbn [packConfig nth].
    split; [destruct (scheduleOn c); simpl; lia |].
    split; [destruct (relayActiveLow c); simpl; lia | reflexivity].
Qed.

(** X6. A config write of at least 10 bytes is durable and silent: the write
    callback returns with the decoded configuration in [cfg] and in the
    store, so that loading the store into any configuration gives it back;
    the pump flag, the day counter and the watered flag are untouched, and
    the only output is the log line: the relay is not written and nothing is
    notified on the config or pump-state characteristics. *)
Theorem config_write_persists (data : list Z) (s : State) (c0 : Config) :
  (10 <= length data)%nat ->
  exists s',
    ConfigCallbacks_onWrite data s =
      Done tt s' (logTrace (clientConnected s) "Config updated from app") /\
    cfg s' = decodeFields data /\
    loadPrefs (nvs s') c0 = cfg s' /\
    s' = set_nvs (nvs s') (set_cfg (cfg s') s).
Proof.
  intros Hlen. unfold ConfigCallbacks_onWrite.
  rewrite (bind_run _ _ _ _ _ _ (unpackConfig_long data s Hlen)).
  rewrite log_run. eexists. split; [reflexivity |].
  cbn [cfg nvs set_nvs set_cfg]. split; [reflexivity |]. split; [| reflexivity].
  apply loadPrefs_savePrefs, decodeFields_representable.
Qed.

Lemma config_write_persists_witness :
  exists s',
    ConfigCallbacks_onWrite [1; 2; 3; 4; 5; 6; 7; 8; 0; 99] bootState =
      Done tt s' (logTrace false "Config updated from app") /\
    loadPrefs (nvs s') defaultConfig = cfg s'.
Proof.
  destruct (config_write_persists [1; 2; 3; 4; 5; 6; 7; 8; 0; 99] bootState
              defaultConfig) as (s' & Hrun & _ & Hload & _).
  - simpl. lia.
  - exists s'. split; [exact Hrun | exact Hload].
Defined.

(** ** Mirroring of the log *)

Lemma mirrored_nil c : mirrored c [].
Proof. unfold mirrored. simpl. now destruct c. Qed.

Lemma serialLines_app tr1 tr2 :
  serialLines (tr1 ++ tr2) = serialLines tr1 ++ serialLines tr2.
Proof.
  induction tr1 as [| e tr1 IH]; [reflexivity |].
  destruct e; simpl; now rewrite IH.
Qed.

Lemma logValues_app tr1 tr2 :
  logValues (tr1 ++ tr2) = logValues tr1 ++ logValues tr2.
Proof.
  induction tr1 as [| e tr1 IH]; [reflexivity |].
  destruct e as [| | [] v | | |]; simpl; now rewrite IH.
Qed.

Lemma mirrored_app c tr1 tr2 :
  mirrored c tr1 -> mirrored c tr2 -> mirrored c (tr1 ++ tr2).
Proof.
  unfold mirrored. intros [A1 B1] [A2 B2].
  rewrite countEvents_app, logValues_app, serialLines_app, length_app. split.
  - rewrite A1, A2. destruct c; [now rewrite map_app | reflexivity].
  - now rewrite B1, B2.
Qed.

Lemma mirrored_logTrace c msg : mirrored c (logTrace c msg).
Proof. unfold mirrored, logTrace. now destruct c. Qed.

Lemma mirrored_pumpTrace on s : mirrored (clientConnected s) (pumpTrace on s).
Proof. unfold mirrored, pumpTrace, logTrace. now destruct (clientConnected s). Qed.

Lemma mirrored_runTrace k s : mirrored (clientConnected s) (runTrace k s).
Proof.
  unfold runTrace, runEndTrace.
  apply mirrored_app; [apply mirrored_pumpTrace |].
  apply mirrored_app; [apply mirrored_pumpTrace | apply mirrored_logTrace].
Qed.

Lemma mirrored_autotuneTrace c cf : mirrored c (autotuneTrace c cf).
Proof.
  unfold autotuneTrace.
  apply mirrored_app; [apply mirrored_logTrace |].
  apply mirrored_app; [apply mirrored_logTrace |].
  unfold mirrored. simpl. now destruct c.
Qed.

(** ** Commands *)

Lemma c_str_nul (a b : string) : c_str (a +:+ String Ascii.zero b) = c_str a.
Proof.
  induction a as [| ch a IH]; [reflexivity |].
  change (c_str (String ch a +:+ String Ascii.zero b)) with
    (if Ascii.eqb ch Ascii.zero then EmptyString
     else String ch (c_str (a +:+ String Ascii.zero b))).
  rewrite IH. reflexivity.
Qed.

Lemma substring_all (s : string) : String.substring 0 (String.length s) s = s.
Proof. induction s as [| ch s IH]; [reflexivity |]. simpl. now rewrite IH. Qed.

Lemma command_TOGGLE adc fuel s :
  CmdCallbacks_onWrite adc fuel "TOGGLE" s =
  Done tt (set_pumpRunning (negb (pumpRunning s)) s)
       (pumpTrace (negb (pumpRunning s)) s).
Proof.
  change (CmdCallbacks_onWrite adc fuel "TOGGLE" s) with
    ((running <- gets pumpRunning;; setPump (negb running)) s).
  unfold bind at 1. unfold gets at 1. rewrite setPump_run.
  now rewrite app_nil_l.
Qed.

Lemma water_run cmd s :
  water cmd s =
  Done tt
    (set_pumpRunning false
       (set_clock
          (clock s +
           u32 (i32 ((if toInt (substringFrom 6 cmd) <=? 0
                      then durationSec (cfg s)
                      else toInt (substringFrom 6 cmd)) * 1000)))
          (set_pumpRunning true s)))
    (pumpTrace true s ++ pumpTrace false s ++
     logTrace (clientConnected s) "Manual watering finished").
Proof.
  unfold water. unfold bind at 1. unfold gets at 1.
  rewrite (bind_run _ _ _ _ _ _ (setPump_run true s)).
  rewrite (bind_run _ _ _ _ _ _ (delay_run _ _)).
  rewrite (bind_run _ _ _ _ _ _ (setPump_run false _)).
  rewrite log_run. reflexivity.
Qed.

Lemma set_pumpRunning_twice a b s :
  set_pumpRunning a (set_pumpRunning b s) = set_pumpRunning a s.
Proof. reflexivity. Qed.

(** X7. TOGGLE inverts the pump flag: it does what OFF does when the pump
    runs and what ON does when it is idle, and a second TOGGLE brings the
    state back, after two calls of [setPump] in all. *)
Theorem toggle_twice (adc : Z -> Z -> Z) (fuel : nat) (s : State) :
  exists s1 tr1 tr2,
    CmdCallbacks_onWrite adc fuel "TOGGLE" s = Done tt s1 tr1 /\
    pumpRunning s1 = negb (pumpRunning s) /\
    CmdCallbacks_onWrite adc fuel "TOGGLE" s =
      CmdCallbacks_onWrite adc fuel (if pumpRunning s then "OFF" else "ON") s /\
    CmdCallbacks_onWrite adc fuel "TOGGLE" s1 = Done tt s tr2 /\
    pumpCalls (tr1 ++ tr2) = 2%nat.
Proof.
  do 3 eexists. split; [apply command_TOGGLE |]. split; [reflexivity |].
  split; [| split].
  - rewrite command_TOGGLE.
    destruct (pumpRunning s); [now rewrite command_OFF | now rewrite command_ON].
  - rewrite command_TOGGLE.
    change (pumpRunning (set_pumpRunning ?b ?x)) with b.
    rewrite set_pumpRunning_twice, negb_involutive, set_pumpRunning_same.
    reflexivity.
  - now rewrite pumpCalls_app, !pumpTrace_calls.
Qed.

Lemma prefix_nil (x : string) : String.prefix "" x = true.
Proof. now destruct x. Qed.

Lemma command_WATER adc fuel rest s :
  CmdCallbacks_onWrite adc fuel ("WATER:" +:+ rest) s =
  water ("WATER:" +:+ c_str rest) s.
Proof.
  unfold CmdCallbacks_onWrite. cbv [String.append].
  cbn -[water autotune setPump]. now rewrite prefix_nil.
Qed.

Lemma substringFrom_WATER rest : substringFrom 6 ("WATER:" +:+ rest) = rest.
Proof.
  unfold substringFrom. cbv [String.append].
  cbn [String.length Nat.sub String.substring].
  rewrite Nat.sub_0_r. apply substring_all.
Qed.

(** X8. WATER:<text> runs the pump for the number that [toInt] reads at the
    start of the text, in seconds, when that number is positive, and for
    [durationSec] otherwise (no text, no number, zero or a negative number);
    the product with 1000 has to fit an [int].  The command returns with the
    pump off, whatever it was before, after one [setPump(true)] and one
    [setPump(false)], with the clock advanced by the run and nothing else
    changed. *)
Theorem water_command (adc : Z -> Z -> Z) (fuel : nat) (rest : string)
    (s : State) :
  let n := toInt (c_str rest) in
  let sec := if n <=? 0 then durationSec (cfg s) else n in
  0 <= sec * 1000 < 2 ^ 31 ->
  exists tr,
    CmdCallbacks_onWrite adc fuel ("WATER:" +:+ rest) s =
      Done tt (set_pumpRunning false (set_clock (clock s + sec * 1000) s)) tr /\
    tr = pumpTrace true s ++ pumpTrace false s ++
         logTrace (clientConnected s) "Manual watering finished" /\
    runsStarted tr = 1%nat /\ pumpCalls tr = 2%nat.
Proof.
  intros n sec Hsec. rewrite command_WATER, water_run, substringFrom_WATER.
  fold n. fold sec. rewrite i32_small, u32_small by lia.
  eexists. split; [reflexivity |]. split; [reflexivity |].
  unfold pumpTrace, logTrace, runsStarted, pumpCalls.
  destruct (clientConnected s); split; reflexivity.
Qed.

Lemma water_command_witness :
  exists tr,
    CmdCallbacks_onWrite steadyAdc 0 "WATER:5 min" bootState =
      Done tt (set_pumpRunning false (set_clock (0 + 5 * 1000) bootState)) tr /\
    runsStarted tr = 1%nat.
Proof.
  destruct (water_command steadyAdc 0 "5 min" bootState) as (tr & Hrun & _ & H1 & _).
  - vm_compute. split; [discriminate | reflexivity].
  - exists tr. split; [exact Hrun | exact H1].
Defined.

(** *** Decimal numbers *)

Lemma atol_digits_acc d : forall acc : positive,
  atol_digits (NilEmpty.string_of_uint d) (Z.pos acc) =
  Z.pos (Pos.of_uint_acc d acc).
Proof.
  induction d as [| d IH | d IH | d IH | d IH | d IH | d IH | d IH | d IH
                  | d IH | d IH]; intros acc;
    [reflexivity | ..];
    cbn [NilEmpty.string_of_uint Pos.of_uint_acc atol_digits];
    rewrite <- IH;
    match goal with
    | |- context [digit_of ?c] =>
        let v := eval vm_compute in (digit_of c) in change (digit_of c) with v
    end;
    cbv beta iota; f_equal; lia.
Qed.

Lemma atol_digits_value d :
  atol_digits (NilEmpty.string_of_uint d) 0 = Z.of_N (N.of_uint d).
Proof.
  induction d as [| d IH | d IH | d IH | d IH | d IH | d IH | d IH | d IH
                  | d IH | d IH];
    [reflexivity | exact IH | ..];
    cbn [NilEmpty.string_of_uint N.of_uint Pos.of_uint Z.of_N];
    rewrite <- atol_digits_acc; reflexivity.
Qed.

Lemma toInt_of_uint d :
  toInt (NilZero.string_of_uint d) = clamp_long (Z.of_N (N.of_uint d)).
Proof.
  destruct d; [reflexivity | ..];
    rewrite <- atol_digits_value; reflexivity.
Qed.

Lemma c_str_of_uint d :
  c_str (NilEmpty.string_of_uint d) = NilEmpty.string_of_uint d.
Proof.
  induction d; [reflexivity | ..];
    cbn [NilEmpty.string_of_uint];
    rewrite <- IHd at 2; reflexivity.
Qed.

(** X9. [toInt] reads back the decimal digits that the sketch prints: for
    every number of the range of a non-negative [int], the digits contain no
    NUL and [toInt] of them is the number.  So WATER:<n>, written in decimal
    digits, waters for exactly [n] seconds for every [n] from 1 to 2147483. *)
Theorem toInt_decimal (adc : Z -> Z -> Z) (fuel : nat) (n : Z) (s : State) :
  0 <= n < 2 ^ 31 ->
  c_str (decimal n) = decimal n /\
  toInt (decimal n) = n /\
  (1 <= n <= 2147483 ->
   exists tr,
     CmdCallbacks_onWrite adc fuel ("WATER:" +:+ decimal n) s =
       Done tt (set_pumpRunning false (set_clock (clock s + n * 1000) s)) tr).
Proof.
  intros Hn.
  assert (Hc : c_str (decimal n) = decimal n).
  { unfold decimal. destruct (N.to_uint (Z.to_N n)) eqn:E;
      [reflexivity | apply (c_str_of_uint (Decimal.D0 u))
       | apply (c_str_of_uint (Decimal.D1 u)) | apply (c_str_of_uint (Decimal.D2 u))
       | apply (c_str_of_uint (Decimal.D3 u)) | apply (c_str_of_uint (Decimal.D4 u))
       | apply (c_str_of_uint (Decimal.D5 u)) | apply (c_str_of_uint (Decimal.D6 u))
       | apply (c_str_of_uint (Decimal.D7 u)) | apply (c_str_of_uint (Decimal.D8 u))
       | apply (c_str_of_uint (Decimal.D9 u))]. }
  assert (Ht : toInt (decimal n) = n).
  { unfold decimal. rewrite toInt_of_uint, DecimalN.Unsigned.of_to.
    rewrite Z2N.id by lia. unfold clamp_long. lia. }
  split; [exact Hc |]. split; [exact Ht |].
  intros Hrange.
  rewrite command_WATER, water_run, substringFrom_WATER, Hc, Ht.
  destruct (Z.leb_spec n 0); [lia |].
  rewrite i32_small, u32_small by lia.
  eexists. reflexivity.
Qed.

Lemma toInt_decimal_witness : toInt (decimal 1200) = 1200.
Proof. apply (toInt_decimal steadyAdc 0 1200 bootState). lia. Defined.

(** *** All commands *)

Lemma command_outcome adc fuel value s :
  (100 <= fuel)%nat ->
  exists s' tr,
    CmdCallbacks_onWrite adc fuel value s = Done tt s' tr /\
    secondsToday s' = secondsToday s /\
    wateredToday s' = wateredToday s /\
    lastSecond s' = lastSecond s /\
    clientConnected s' = clientConnected s /\
    mirrored (clientConnected s) tr /\
    (startsWith (c_str value) "AUTOTUNE" = false ->
     cfg s' = cfg s /\ nvs s' = nvs s).
Proof.
  intros Hfuel. unfold CmdCallbacks_onWrite. cbv zeta.
  destruct (String.eqb (c_str value) "ON").
  { rewrite setPump_run. do 2 eexists. split; [reflexivity |].
    repeat split. all: apply mirrored_pumpTrace. }
  destruct (String.eqb (c_str value) "OFF").
  { rewrite setPump_run. do 2 eexists. split; [reflexivity |].
    repeat split. all: apply mirrored_pumpTrace. }
  destruct (String.eqb (c_str value) "TOGGLE").
  { unfold bind at 1. unfold gets at 1. rewrite setPump_run, app_nil_l.
    do 2 eexists. split; [reflexivity |].
    repeat split. all: apply mirrored_pumpTrace. }
  destruct (startsWith (c_str value) "WATER:").
  { rewrite water_run. do 2 eexists. split; [reflexivity |].
    split; [reflexivity |]. split; [reflexivity |]. split; [reflexivity |].
    split; [reflexivity |]. split; [| intros _; split; reflexivity].
    apply mirrored_app; [apply mirrored_pumpTrace |].
    apply mirrored_app; [apply mirrored_pumpTrace | apply mirrored_logTrace]. }
  destruct (startsWith (c_str value) "AUTOTUNE").
  { rewrite (autotune_run adc fuel s Hfuel). cbv zeta.
    do 2 eexists. split; [reflexivity |].
    split; [reflexivity |]. split; [reflexivity |]. split; [reflexivity |].
    split; [reflexivity |]. split; [apply mirrored_autotuneTrace | discriminate]. }
  rewrite log_run. do 2 eexists. split; [reflexivity |].
  split; [reflexivity |]. split; [reflexivity |]. split; [reflexivity |].
  split; [reflexivity |]. split; [apply mirrored_logTrace |].
  intros _. split; reflexivity.
Qed.

(** X10. No command stops the sketch and only the autotune reconfigures it:
    with fuel for the 100 turns of the sampling loop, every text written to
    the command characteristic is served without fault; the day counter,
    the watered flag and the connection flag are as before, and unless the
    text starts with AUTOTUNE the configuration and the store are as
    before too. *)
Theorem commands_return (adc : Z -> Z -> Z) (fuel : nat) (value : string)
    (s : State) :
  (100 <= fuel)%nat ->
  exists s' tr,
    CmdCallbacks_onWrite adc fuel value s = Done tt s' tr /\
    secondsToday s' = secondsToday s /\
    wateredToday s' = wateredToday s /\
    clientConnected s' = clientConnected s /\
    (startsWith (c_str value) "AUTOTUNE" = false ->
     cfg s' = cfg s /\ nvs s' = nvs s).
Proof.
  intros Hfuel.
  destruct (command_outcome adc fuel value s Hfuel)
    as (s' & tr & H1 & H2 & H3 & _ & H5 & _ & H7).
  exists s', tr. repeat split; try assumption; now apply H7.
Qed.

Lemma commands_return_witness :
  exists s' tr,
    CmdCallbacks_onWrite steadyAdc 100 "WATER:-3" runningState = Done tt s' tr /\
    cfg s' = scheduledConfig.
Proof.
  destruct (commands_return steadyAdc 100 "WATER:-3" runningState)
    as (s' & tr & Hrun & _ & _ & _ & Hcfg).
  - apply Nat.le_refl.
  - exists s', tr. split; [exact Hrun |]. now apply Hcfg.
Defined.

(** X11. A text that is none of ON, OFF and TOGGLE and starts with neither
    WATER: nor AUTOTUNE (the empty text and lower-case spellings are such
    texts) leaves the whole state as it is; the only effect is the line
    "Unknown command: <text>". *)
Theorem unknown_command (adc : Z -> Z -> Z) (fuel : nat) (value : string)
    (s : State) :
  String.eqb (c_str value) "ON" = false ->
  String.eqb (c_str value) "OFF" = false ->
  String.eqb (c_str value) "TOGGLE" = false ->
  startsWith (c_str value) "WATER:" = false ->
  startsWith (c_str value) "AUTOTUNE" = false ->
  CmdCallbacks_onWrite adc fuel value s =
    Done tt s (logTrace (clientConnected s) ("Unknown command: " +:+ c_str value)) /\
  pumpCalls (logTrace (clientConnected s) ("Unknown command: " +:+ c_str value))
    = 0%nat.
Proof.
  intros H1 H2 H3 H4 H5. unfold CmdCallbacks_onWrite. cbv zeta.
  rewrite H1, H2, H3, H4, H5, log_run. split; [reflexivity |].
  unfold logTrace, pumpCalls. now destruct (clientConnected s).
Qed.

Lemma unknown_command_witness :
  CmdCallbacks_onWrite steadyAdc 0 "on" runningState =
    Done tt runningState (logTrace false "Unknown command: on") /\
  CmdCallbacks_onWrite steadyAdc 0 "" runningState =
    Done tt runningState (logTrace false "Unknown command: ").
Proof.
  split.
  - apply (unknown_command steadyAdc 0 "on" runningState); reflexivity.
  - apply (unknown_command steadyAdc 0 "" runningState); reflexivity.
Defined.

(** X12. The command is the text up to the first NUL: whatever follows a
    NUL in the written value is ignored. *)
Theorem command_stops_at_nul (adc : Z -> Z -> Z) (fuel : nat)
    (cmd rest : string) (s : State) :
  CmdCallbacks_onWrite adc fuel (cmd +:+ String Ascii.zero rest) s =
  CmdCallbacks_onWrite adc fuel cmd s.
Proof. unfold CmdCallbacks_onWrite. now rewrite c_str_nul. Qed.

(** ** The main loop, all calls *)

Lemma mirrored_loopTrace adc s :
  mirrored (clientConnected s) (loopTrace adc s).
Proof.
  destruct (afterTick_keeps s) as (_ & Ht).
  assert (Hb : clientConnected (beforeSchedule adc s) = clientConnected s).
  { unfold beforeSchedule.
    destruct (afterLevel_keeps (afterSoil adc (afterTick s))) as (_ & L & _).
    destruct (afterSoil_keeps adc (afterTick s)) as (_ & A & _).
    now rewrite L, A, Ht. }
  unfold loopTrace. apply mirrored_app; [| apply mirrored_app].
  - unfold soilTrace. destruct (soilDue _); [| apply mirrored_nil].
    apply mirrored_app.
    + unfold mirrored. simpl. now destruct (clientConnected s).
    + destruct (thresholdFires _ _ _); [| apply mirrored_nil].
      rewrite <- Ht. apply mirrored_runTrace.
  - unfold levelTrace. destruct (levelDue _); [| apply mirrored_nil].
    unfold mirrored. simpl. now destruct (clientConnected s).
  - unfold scheduleTrace. destruct (schedStarts _); [| apply mirrored_nil].
    rewrite <- Hb. apply mirrored_runTrace.
Qed.

(** The facts of [n] calls, by induction on the calls. *)
Lemma loops_keep adc n : forall s,
  cfg (afterLoops adc n s) = cfg s /\
  nvs (afterLoops adc n s) = nvs s /\
  clientConnected (afterLoops adc n s) = clientConnected s /\
  pumpCalls (loopsTrace adc n s) = (2 * runsStarted (loopsTrace adc n s))%nat /\
  mirrored (clientConnected s) (loopsTrace adc n s) /\
  (pumpRunning s = false -> pumpRunning (afterLoops adc n s) = false) /\
  ((1 <= runsStarted (loopsTrace adc n s))%nat ->
   pumpRunning (afterLoops adc n s) = false).
Proof.
  induction n as [| n IH]; intros s.
  - repeat split; try apply mirrored_nil.
    + intros H. exact H.
    + cbn. lia.
  - rewrite afterLoops_S, loopsTrace_S.
    destruct (IH (afterLoop adc s)) as (I1 & I2 & I3 & I4 & I5 & I6 & I7).
    destruct (afterLoop_fields adc s) as (F1 & _).
    destruct (afterLoop_keeps adc s) as (K1 & K2 & K3 & _).
    rewrite I1, I2, I3, F1, K1, K2.
    rewrite pumpCalls_app, runsStarted_app, I4, loopTrace_pumpCalls.
    split; [reflexivity |]. split; [reflexivity |]. split; [reflexivity |].
    split; [lia |]. split; [| split].
    + apply mirrored_app; [apply mirrored_loopTrace |].
      rewrite <- K2. exact I5.
    + intros Hidle. apply I6. rewrite K3, Hidle.
      destruct (schedStarts _), (autoStarts adc s); reflexivity.
    + intros Hruns.
      destruct (Nat.eq_dec (runsStarted (loopsTrace adc n (afterLoop adc s))) 0)
        as [Hz | Hnz]; [| apply I7; lia].
      apply I6. rewrite K3.
      rewrite loopTrace_runs, autoStarts_afterTick in Hruns.
      destruct (schedStarts _), (autoStarts adc s); try reflexivity.
      simpl in Hruns. lia.
Qed.

(** X13. The main loop never reconfigures the device: any number of calls of
    [loop] returns with the configuration, the store and the connection
    flag exactly as they were. *)
Theorem loop_never_reconfigures (adc : Z -> Z -> Z) (n : nat) (s : State) :
  exists s' tr,
    loops adc n s = Done tt s' tr /\
    cfg s' = cfg s /\ nvs s' = nvs s /\
    clientConnected s' = clientConnected s.
Proof.
  exists (afterLoops adc n s), (loopsTrace adc n s).
  split; [apply loops_run |].
  destruct (loops_keep adc n s) as (H1 & H2 & H3 & _).
  repeat split; assumption.
Qed.

(** X14. The main loop does not leave the pump on: over any number of calls
    of [loop], [setPump] is called exactly twice for each run started, on
    and then off; if the pump was idle at the start it is idle at the end,
    and if a run was started at all the pump is idle at the end even when it
    had been switched on by hand before. *)
Theorem loop_leaves_pump_off (adc : Z -> Z -> Z) (n : nat) (s : State) :
  exists s' tr,
    loops adc n s = Done tt s' tr /\
    pumpCalls tr = (2 * runsStarted tr)%nat /\
    (pumpRunning s = false -> pumpRunning s' = false) /\
    ((1 <= runsStarted tr)%nat -> pumpRunning s' = false).
Proof.
  exists (afterLoops adc n s), (loopsTrace adc n s).
  split; [apply loops_run |].
  destruct (loops_keep adc n s) as (_ & _ & _ & H4 & _ & H6 & H7).
  repeat split; assumption.
Qed.

Lemma loop_leaves_pump_off_witness :
  exists s' tr,
    loops scenarioAdc 1 runningState = Done tt s' tr /\
    pumpRunning s' = false.
Proof.
  destruct (loop_leaves_pump_off scenarioAdc 1 runningState)
    as (s' & tr & Hrun & _ & _ & Hoff).
  exists s', tr. split; [exact Hrun |]. apply Hoff.
  assert (Htr : tr = loopsTrace scenarioAdc 1 runningState).
  { rewrite loops_run in Hrun. congruence. }
  rewrite Htr. vm_compute. apply le_n.
Defined.

(** X15. The log characteristic mirrors the serial port.  In the output of
    the main loop, of a command and of a config write, the values set on the
    log characteristic are, when a client is connected, exactly the texts of
    the lines printed on the serial port, in the same order, each of them
    notified once; when no client is connected, nothing is set on the log
    characteristic and nothing is notified on it. *)
Theorem log_is_mirrored (adc : Z -> Z -> Z) (n fuel : nat) (value : string)
    (data : list Z) (s : State) :
  mirrored (clientConnected s) (traceOf (loops adc n s)) /\
  mirrored (clientConnected s) (traceOf (ConfigCallbacks_onWrite data s)) /\
  ((100 <= fuel)%nat ->
   mirrored (clientConnected s) (traceOf (CmdCallbacks_onWrite adc fuel value s))).
Proof.
  split; [| split].
  - rewrite loops_run. apply loops_keep.
  - unfold ConfigCallbacks_onWrite.
    destruct (Nat.lt_ge_cases (length data) 10) as [Hlt | Hge].
    + rewrite (bind_run _ _ _ _ _ _ (unpackConfig_short data s Hlt)).
      rewrite log_run. apply mirrored_logTrace.
    + rewrite (bind_run _ _ _ _ _ _ (unpackConfig_long data s Hge)).
      rewrite log_run. apply mirrored_logTrace.
  - intros Hfuel.
    destruct (command_outcome adc fuel value s Hfuel)
      as (s' & tr & H1 & _ & _ & _ & _ & H6 & _).
    rewrite H1. exact H6.
Qed.

Lemma log_is_mirrored_witness :
  mirrored true (traceOf (CmdCallbacks_onWrite steadyAdc 100 "AUTOTUNE"
                            (set_clientConnected true bootState))).
Proof.
  apply (log_is_mirrored steadyAdc 0 100 "AUTOTUNE" []
           (set_clientConnected true bootState)).
  apply Nat.le_refl.
Defined.

(** ** The clocks *)

(** X16. How long a call of [loop] lasts and what it does to the day
    counter.  With a configuration that fits its widths and the counter
    within the day, the clock advances by 50 ms plus, when the call waters,
    the [durationSec] of the run; the counter advances by one second at
    most, whatever the length of the call, so it falls behind the clock by
    the duration of every run, and it stays within the day. *)
Theorem loop_timing (adc : Z -> Z -> Z) (s : State) :
  representable (cfg s) ->
  0 <= secondsToday s < 86400 ->
  exists s' tr,
    loop adc s = Done tt s' tr /\
    clock s' =
      clock s + 50 + 1000 * durationSec (cfg s) * Z.of_nat (runsStarted tr) /\
    (secondsToday s' = secondsToday s \/
     secondsToday s' = (secondsToday s + 1) mod 86400) /\
    0 <= secondsToday s' < 86400.
Proof.
  intros (_ & _ & _ & _ & Hd) Hsec.
  exists (afterLoop adc s), (loopTrace adc s). split; [apply loop_run |].
  destruct (afterLoop_keeps adc s) as (_ & _ & _ & Hclock).
  destruct (afterLoop_fields adc s) as (_ & Hs & _).
  pose proof (loopTrace_runs_le adc s) as Hle.
  rewrite loopTrace_runs, autoStarts_afterTick in Hle |- *.
  rewrite Hclock, (u32_small (durationSec (cfg s) * 1000)) by lia.
  assert (Hstep : secondsToday (afterLoop adc s) = secondsToday s \/
                  secondsToday (afterLoop adc s) = (secondsToday s + 1) mod 86400).
  { rewrite Hs.
    destruct (afterTick_cases s Hsec) as [[H _] | [H _]]; [now left | now right]. }
  split; [| split; [exact Hstep |]].
  - destruct (autoStarts adc s), (schedStarts (beforeSchedule adc s));
      cbn [Nat.add Z.of_nat] in *; lia.
  - destruct Hstep as [H | H]; rewrite H; [lia |].
    apply Z.mod_pos_bound. lia.
Qed.

Lemma loop_timing_witness :
  exists s' tr,
    loop scenarioAdc beforeWindow = Done tt s' tr /\
    clock s' = 1000 + 50 + 1000 * 30 * Z.of_nat (runsStarted tr).
Proof.
  destruct (loop_timing scenarioAdc beforeWindow) as (s' & tr & Hrun & Hclock & _).
  - unfold representable. simpl. lia.
  - simpl. lia.
  - exists s', tr. split; [exact Hrun | exact Hclock].
Defined.

Lemma afterLoops_range adc n : forall s,
  0 <= secondsToday s < 86400 ->
  0 <= secondsToday (afterLoops adc n s) < 86400.
Proof.
  induction n as [| n IH]; intros s Hsec; [exact Hsec |].
  rewrite afterLoops_S. apply IH.
  destruct (afterLoop_fields adc s) as (_ & Hs & _). rewrite Hs.
  destruct (afterTick_cases s Hsec) as [[H _] | [H _]]; rewrite H; [lia |].
  apply Z.mod_pos_bound. lia.
Qed.

(** X23. The day counter stays within the day: from a counter between 0 and
    86399, as it is after start-up, any number of calls of [loop] returns
    with the counter between 0 and 86399. *)
Theorem day_counter_in_range (adc : Z -> Z -> Z) (n : nat) (s : State) :
  0 <= secondsToday s < 86400 ->
  exists s' tr,
    loops adc n s = Done tt s' tr /\ 0 <= secondsToday s' < 86400.
Proof.
  intros Hsec. exists (afterLoops adc n s), (loopsTrace adc n s).
  split; [apply loops_run | now apply afterLoops_range].
Qed.

Lemma day_counter_in_range_witness :
  exists s' tr,
    loops scenarioAdc 10 beforeMidnight = Done tt s' tr /\
    0 <= secondsToday s' < 86400.
Proof.
  apply (day_counter_in_range scenarioAdc 10 beforeMidnight). simpl. lia.
Defined.

Lemma afterTick_due s :
  tickDue s = true -> 0 <= secondsToday s < 86400 ->
  secondsToday (afterTick s) = (secondsToday s + 1) mod 86400 /\
  wateredToday (afterTick s) =
    (if (secondsToday s + 1) mod 86400 <? 10 then false else wateredToday s).
Proof.
  intros Hdue Hsec. unfold afterTick. rewrite Hdue. cbv zeta.
  rewrite (u32_small (secondsToday s + 1)) by lia.
  destruct (_ <? 10); split; reflexivity.
Qed.

(** X17. A window that starts before second 10 of the day is not protected
    by [wateredToday].  With the schedule on, a tick that brings the counter
    to a second that is at or after the start of the window and below 10
    clears the flag in the ticker, and the schedule block of the same call
    starts a run, even if the device had already watered: the output of the
    call ends with the events of a scheduled run, the relay written to its
    on level and then to its off level, and nothing before them writes the
    relay.  A window at 00:00 waters at each of the seconds 0 to 9. *)
Theorem early_window_fires_again (adc : Z -> Z -> Z) (s : State) :
  scheduleOn (cfg s) = true ->
  tickDue s = true ->
  0 <= secondsToday s < 86400 ->
  windowStart (cfg s) <= (secondsToday s + 1) mod 86400 < 10 ->
  exists s' tr,
    loop adc s = Done tt s' tr /\
    runsStarted tr = 1%nat /\
    secondsToday s' = (secondsToday s + 1) mod 86400 /\
    wateredToday s' = true /\
    pumpRunning s' = false /\
    let told := fun line : string =>
      ESerial line ::
      (if clientConnected s
       then [ESetValue LogChr (Text line); ENotify LogChr] else []) in
    let run :=
      [ EDigitalWrite RELAY_PIN (negb (relayActiveLow (cfg s)));
        ESetValue StateChr (Bytes [1; flowPct (cfg s)]); ENotify StateChr ] ++
      told "Pump ON" ++
      [ EDigitalWrite RELAY_PIN (relayActiveLow (cfg s));
        ESetValue StateChr (Bytes [0; flowPct (cfg s)]); ENotify StateChr ] ++
      told "Pump OFF" ++ told "Scheduled watering done" in
    exists pre, tr = pre ++ run /\ relayWrites pre = 0%nat.
Proof.
  intros Hon Hdue Hsec Hwin.
  exists (afterLoop adc s), (loopTrace adc s). split; [apply loop_run |].
  destruct (afterTick_due s Hdue Hsec) as (Ts & Tw).
  destruct (beforeSchedule_frame adc s) as (Bc & Bs & Bw).
  destruct (afterLoop_fields adc s) as (_ & Fs & Fw).
  destruct (afterLoop_keeps adc s) as (_ & _ & Kp & _).
  assert (Hfires : schedStarts (beforeSchedule adc s) = true).
  { unfold schedStarts, scheduleFires. rewrite Bc, Bs, Bw, Ts, Tw, Hon.
    destruct (Z.ltb_spec ((secondsToday s + 1) mod 86400) 10); [| lia].
    assert (Hws : 0 <= windowStart (cfg s)) by apply u32_range.
    rewrite (u32_small (windowStart (cfg s) + 20)) by lia.
    cbn [negb andb].
    destruct (Z.leb_spec (windowStart (cfg s)) ((secondsToday s + 1) mod 86400));
      [| lia].
    destruct (Z.ltb_spec ((secondsToday s + 1) mod 86400)
                (windowStart (cfg s) + 20)); [reflexivity | lia]. }
  rewrite Hfires in Kp.
  split.
  { rewrite loopTrace_runs, autoStarts_afterTick, Hfires.
    rewrite autoStarts_scheduleOn by assumption. reflexivity. }
  split; [now rewrite Fs, Ts |].
  split; [now rewrite Fw, Hfires |].
  split; [exact Kp |].
  intros told run. now apply loopTrace_sched.
Qed.

Lemma early_window_fires_again_witness :
  exists s' tr pre,
    loop scenarioAdc beforeMidnight = Done tt s' tr /\
    secondsToday s' = (86399 + 1) mod 86400 /\
    wateredToday s' = true /\
    tr = pre ++
         [ EDigitalWrite RELAY_PIN false;
           ESetValue StateChr (Bytes [1; 100]); ENotify StateChr;
           ESerial "Pump ON";
           EDigitalWrite RELAY_PIN true;
           ESetValue StateChr (Bytes [0; 100]); ENotify StateChr;
           ESerial "Pump OFF"; ESerial "Scheduled watering done" ] /\
    relayWrites pre = 0%nat.
Proof.
  destruct (early_window_fires_again scenarioAdc beforeMidnight)
    as (s' & tr & Hrun & _ & Hs & Hw & _ & pre & Htr & Hpre).
  - reflexivity.
  - reflexivity.
  - simpl. lia.
  - vm_compute. split; [discriminate | reflexivity].
  - exists s', tr, pre. split; [exact Hrun |]. split; [exact Hs |].
    split; [exact Hw |]. split; [exact Htr | exact Hpre].
Defined.

(** Ten calls of [loop] around midnight, ten runs, with the flag set all
    along. *)
Lemma midnight_waters_ten_times :
  wateredToday beforeMidnight = true /\
  runsStarted (traceOf (loops scenarioAdc 10 beforeMidnight)) = 10%nat.
Proof. vm_compute. split; reflexivity. Qed.

(** X18. The three timers of the loop work across the wrap of [millis]: if a
    time stamp was taken from [millis] at time [t0] and [d] milliseconds
    have gone by since, with [d] below 2^32, the tick is due exactly when
    [d >= 1000], the soil reading when [d > 1000] and the level reading when
    [d > 2000], also when the 32-bit counter has wrapped in between. *)
Theorem timers_survive_rollover (s : State) (t0 d : Z) :
  0 <= d < 2 ^ 32 ->
  clock s = t0 + d ->
  (lastSecond s = u32 t0 -> tickDue s = (1000 <=? d)) /\
  (lastSoilTime s = u32 t0 -> soilDue s = (1000 <? d)) /\
  (lastLevelTime s = u32 t0 -> levelDue s = (2000 <? d)).
Proof.
  intros Hd Hclock.
  assert (He : u32 (u32 (clock s) - u32 t0) = d).
  { rewrite u32_sub, Hclock. replace (t0 + d - t0) with d by lia.
    now apply u32_small. }
  unfold tickDue, soilDue, levelDue.
  repeat split; intros ->; now rewrite He.
Qed.

Lemma timers_survive_rollover_witness :
  u32 (clock beforeRollover) < lastSecond beforeRollover /\
  tickDue beforeRollover = true.
Proof.
  split; [vm_compute; reflexivity |].
  destruct (timers_survive_rollover beforeRollover (2 ^ 32 - 500) 1000) as (H & _).
  - lia.
  - reflexivity.
  - rewrite H; reflexivity.
Defined.

(** ** Notifications *)

Lemma word_bytes v :
  0 <= v < 2 ^ 16 ->
  0 <= lowByte v < 2 ^ 8 /\ 0 <= highByte v < 2 ^ 8 /\
  lowByte v + 2 ^ 8 * highByte v = v.
Proof.
  intros Hv. unfold lowByte, highByte.
  rewrite (u8_small (Z.land v 255)) by (apply low_byte_range; lia).
  rewrite (u8_small (Z.shiftr v 8)) by now apply high_byte_range.
  split; [apply low_byte_range; lia |]. split; [now apply high_byte_range |].
  change 255 with (Z.ones 8). rewrite Z.land_ones, Z.shiftr_div_pow2 by lia.
  pose proof (Z.div_mod v (2 ^ 8)). lia.
Qed.

Lemma runTrace_no_soil k s : countEvents isSoilValue (runTrace k s) = 0%nat.
Proof.
  unfold runTrace, runEndTrace, pumpTrace, logTrace.
  destruct (clientConnected s); reflexivity.
Qed.

(** X19. The soil notification carries the reading: in a call of [loop] with
    the soil reading due, the first output is the soil characteristic set to
    two bytes, low byte first, whose value is the reading, followed by its
    notification, and the soil characteristic is set only once in the call;
    in a call with no reading due it is not set at all. *)
Theorem soil_notification (adc : Z -> Z -> Z) (s : State) :
  (soilDue s = true ->
   exists b0 b1 rest,
     traceOf (loop adc s) =
       ESetValue SoilChr (Bytes [b0; b1]) :: ENotify SoilChr :: rest /\
     0 <= b0 < 2 ^ 8 /\ 0 <= b1 < 2 ^ 8 /\
     b0 + 2 ^ 8 * b1 = soilReading adc s /\
     countEvents isSoilValue (traceOf (loop adc s)) = 1%nat) /\
  (soilDue s = false ->
   countEvents isSoilValue (traceOf (loop adc s)) = 0%nat).
Proof.
  rewrite loop_run. change (traceOf (Done tt ?x ?y)) with y.
  destruct (afterTick_frame s) as (T1 & T2 & T3 & T4 & _).
  assert (Hdue : soilDue (afterTick s) = soilDue s).
  { unfold soilDue. now rewrite T3, T4. }
  assert (Hread : soilReading adc (afterTick s) = soilReading adc s).
  { unfold soilReading. now rewrite T3. }
  assert (Hlevel : forall x, countEvents isSoilValue (levelTrace adc x) = 0%nat).
  { intros x. unfold levelTrace. now destruct (levelDue x). }
  assert (Hsched : forall x, countEvents isSoilValue (scheduleTrace x) = 0%nat).
  { intros x. unfold scheduleTrace. destruct (schedStarts x); [| reflexivity].
    apply runTrace_no_soil. }
  unfold loopTrace, soilTrace. rewrite Hdue, Hread. split; intros Hs; rewrite Hs.
  - destruct (word_bytes (soilReading adc s)) as (B0 & B1 & Bv);
      [apply u16_range |].
    do 3 eexists. split; [reflexivity |].
    split; [exact B0 |]. split; [exact B1 |]. split; [exact Bv |].
    rewrite !countEvents_app, Hlevel, Hsched.
    destruct (thresholdFires _ _ _); [| reflexivity].
    rewrite runTrace_no_soil. reflexivity.
  - rewrite !countEvents_app, Hlevel, Hsched. reflexivity.
Qed.

Lemma soil_notification_witness :
  exists b0 b1 rest,
    traceOf (loop scenarioAdc scenarioState) =
      ESetValue SoilChr (Bytes [b0; b1]) :: ENotify SoilChr :: rest /\
    b0 + 2 ^ 8 * b1 = 1000.
Proof.
  destruct (soil_notification scenarioAdc scenarioState) as (H & _).
  destruct H as (b0 & b1 & rest & Htr & _ & _ & Hv & _); [reflexivity |].
  exists b0, b1, rest. split; [exact Htr | exact Hv].
Defined.

(** ** Start-up *)

(** X20. [setup] switches the relay before it loads the configuration: from
    the globals as initialised and any store, it writes the relay pin high
    (the off level of the compiled-in polarity), then loads the store, and
    returns with the pump flag false.  When the store says that the relay is
    not active-low, the level written is therefore the on level of the
    loaded configuration: the relay is closed while the pump counts as
    idle.  When the store holds no polarity or active-low, it is the off
    level. *)
Theorem setup_relay_level (p : gmap string PrefVal) :
  exists s',
    setup (set_nvs p bootState) =
      Done tt s' [ EDigitalWrite RELAY_PIN true; EAdvertise;
                   ESerial "Smart Watering System Ready!" ] /\
    cfg s' = loadPrefs p defaultConfig /\
    pumpRunning s' = false /\
    (getBool p "inv" true = false -> true = negb (relayOffLevel (cfg s'))) /\
    (getBool p "inv" true = true -> true = relayOffLevel (cfg s')).
Proof.
  exists (set_cfg (loadPrefs p defaultConfig) (set_nvs p bootState)).
  split; [reflexivity |].
  split; [reflexivity |]. split; [reflexivity |].
  change (relayOffLevel (cfg (set_cfg (loadPrefs p defaultConfig)
                                (set_nvs p bootState))))
    with (getBool p "inv" true).
  split; intros ->; reflexivity.
Qed.

Lemma setup_relay_level_witness :
  exists s',
    setup (set_nvs activeHighStore bootState) =
      Done tt s' [ EDigitalWrite RELAY_PIN true; EAdvertise;
                   ESerial "Smart Watering System Ready!" ] /\
    pumpRunning s' = false /\
    true = negb (relayOffLevel (cfg s')).
Proof.
  destruct (setup_relay_level activeHighStore) as (s' & Hrun & _ & Hp & Hon & _).
  exists s'. split; [exact Hrun |]. split; [exact Hp |].
  apply Hon. reflexivity.
Defined.

(** ** The autotune, for every sensor *)

Lemma samples_length adc k c : length (samples adc k c) = k.
Proof. revert c. induction k as [| k IH]; intros c; simpl; [| rewrite IH]; reflexivity. Qed.

Lemma total_bounds (l : list Z) (m : Z) :
  Forall (fun x => 0 <= x <= m) l ->
  0 <= total l <= m * Z.of_nat (length l).
Proof.
  induction 1 as [| x l Hx Hl IH]; [simpl; lia |].
  cbn [total length]. rewrite Nat2Z.inj_succ. lia.
Qed.

Lemma samples_range adc k c : Forall (fun x => 0 <= x <= 65535) (samples adc k c).
Proof.
  revert c. induction k as [| k IH]; intros c; simpl; [apply Forall_nil; exact I |].
  apply Forall_cons. split; [| apply IH].
  pose proof (u16_range (adc SOIL_PIN c)). lia.
Qed.

Lemma sampleSum_total adc k : forall c sum,
  0 <= sum -> sum + 65535 * Z.of_nat k < 2 ^ 32 ->
  sampleSum adc k c sum = sum + total (samples adc k c).
Proof.
  induction k as [| k IH]; intros c sum Hsum Hmax.
  - simpl. lia.
  - cbn [sampleSum samples total].
    pose proof (u16_range (adc SOIL_PIN c)) as Hr.
    rewrite u32_small by lia.
    rewrite IH by lia. lia.
Qed.

Lemma command_AUTOTUNE_prefix adc fuel rest s :
  CmdCallbacks_onWrite adc fuel ("AUTOTUNE" +:+ rest) s = autotune adc fuel s.
Proof.
  unfold CmdCallbacks_onWrite. cbv [String.append].
  cbn -[water autotune setPump]. now rewrite prefix_nil.
Qed.

(** X21. The autotune for any sensor.  Every text that starts with AUTOTUNE,
    given fuel for the 100 turns of the sampling loop, returns after 12
    seconds of clock with the threshold set to the mean of 100 samples (the
    readings at 2.0 s, 2.1 s, ..., 11.9 s after the command, their sum
    divided by 100 and rounded down) plus 200, reduced to 16 bits; the other
    fields of the configuration and the pump flag are as before, and the new
    configuration is stored.  With readings of the 12-bit converter the new
    threshold lies between 200 and 4295. *)
Theorem autotune_mean (adc : Z -> Z -> Z) (fuel : nat) (rest : string)
    (s : State) :
  (100 <= fuel)%nat ->
  let readings := samples adc 100 (clock s + 2000) in
  exists s',
    CmdCallbacks_onWrite adc fuel ("AUTOTUNE" +:+ rest) s =
      Done tt s' (autotuneTrace (clientConnected s) (cfg s')) /\
    length readings = 100%nat /\
    cfg s' = set_threshold (u16 (total readings / 100 + 200)) (cfg s) /\
    nvs s' = savePrefs (cfg s') (nvs s) /\
    clock s' = clock s + 12000 /\
    pumpRunning s' = pumpRunning s /\
    (Forall (fun x => 0 <= x <= 4095) readings ->
     200 <= threshold (cfg s') <= 4295).
Proof.
  intros Hfuel readings.
  rewrite command_AUTOTUNE_prefix, (autotune_run adc fuel s Hfuel). cbv zeta.
  assert (Hlen : length readings = 100%nat) by apply samples_length.
  assert (Hmean : tunedThreshold adc s = u16 (total readings / 100 + 200)).
  { unfold tunedThreshold.
    rewrite sampleSum_total by (change (Z.of_nat 100) with 100; lia).
    rewrite Z.add_0_l. fold readings.
    pose proof (total_bounds readings 65535 (samples_range adc 100 _)) as Hb.
    rewrite Hlen in Hb. change (Z.of_nat 100) with 100 in Hb.
    rewrite (u16_small (total readings / 100)); [reflexivity |].
    split; [apply Z.div_pos; lia | apply Z.div_lt_upper_bound; lia]. }
  rewrite Hmean.
  exists (set_nvs
            (savePrefs (set_threshold (u16 (total readings / 100 + 200)) (cfg s))
               (nvs s))
            (set_cfg (set_threshold (u16 (total readings / 100 + 200)) (cfg s))
               (set_clock (clock s + 12000) s))).
  cbn [cfg nvs clock pumpRunning set_nvs set_cfg set_clock].
  split; [reflexivity |].
  split; [exact Hlen |]. split; [reflexivity |].
  split; [reflexivity |]. split; [reflexivity |]. split; [reflexivity |].
  intros Hadc. cbn [threshold set_threshold].
  pose proof (total_bounds readings 4095 Hadc) as Hb.
  rewrite Hlen in Hb. change (Z.of_nat 100) with 100 in Hb.
  assert (Hq : 0 <= total readings / 100 <= 4095).
  { split; [apply Z.div_pos; lia |].
    apply Z.lt_succ_r. apply Z.div_lt_upper_bound; lia. }
  rewrite u16_small by lia. lia.
Qed.

Lemma autotune_mean_witness :
  exists s',
    CmdCallbacks_onWrite scenarioAdc 100 "AUTOTUNE now" scenarioState =
      Done tt s' (autotuneTrace false (cfg s')) /\
    clock s' = 5000 + 12000.
Proof.
  destruct (autotune_mean scenarioAdc 100 " now" scenarioState)
    as (s' & Hrun & _ & _ & _ & Hclock & _).
  - apply Nat.le_refl.
  - exists s'. split; [exact Hrun | exact Hclock].
Defined.

(** ** Watering while the soil stays dry *)

Lemma afterLoop_lastSoilTime adc s :
  lastSoilTime (afterLoop adc s) =
  (if soilDue s then u32 (clock s) else lastSoilTime s).
Proof.
  destruct (afterTick_frame s) as (_ & _ & T3 & T4 & _).
  assert (Hdue : soilDue (afterTick s) = soilDue s).
  { unfold soilDue. now rewrite T3, T4. }
  assert (Hsoil : lastSoilTime (afterSoil adc (afterTick s)) =
                  (if soilDue s then u32 (clock s) else lastSoilTime s)).
  { unfold afterSoil. rewrite Hdue. destruct (soilDue s); [| exact T4].
    cbv zeta. rewrite T3. destruct (thresholdFires _ _ _); reflexivity. }
  assert (Hlevel : lastSoilTime (beforeSchedule adc s) =
                   lastSoilTime (afterSoil adc (afterTick s))).
  { unfold beforeSchedule, afterLevel. now destruct (levelDue _). }
  assert (Hsched : lastSoilTime (afterSchedule (beforeSchedule adc s)) =
                   lastSoilTime (beforeSchedule adc s)).
  { unfold afterSchedule. now destruct (schedStarts _). }
  assert (Hclock : forall t x, lastSoilTime (set_clock t x) = lastSoilTime x)
    by reflexivity.
  unfold afterLoop. now rewrite Hclock, Hsched, Hlevel, Hsoil.
Qed.

(** X22. No pause between automatic runs: with the schedule off, the pump
    idle, a run length of at least one second and a configuration that fits
    its widths, if the soil reads above the threshold in a call of [loop]
    and again 50 ms after the end of the run, the very next call waters
    again.  Two calls, two runs, with 50 ms of pause in between: the output
    is the first soil notification and the events of a whole run, relay on
    and relay off, then the second soil notification and the events of a
    whole run again, and the relay is written nowhere else. *)
Theorem dry_soil_waters_again (adc : Z -> Z -> Z) (s : State) :
  scheduleOn (cfg s) = false ->
  pumpRunning s = false ->
  soilDue s = true ->
  representable (cfg s) ->
  1 <= durationSec (cfg s) ->
  threshold (cfg s) < u16 (adc SOIL_PIN (clock s)) ->
  threshold (cfg s) <
    u16 (adc SOIL_PIN (clock s + 1000 * durationSec (cfg s) + 50)) ->
  exists s' tr,
    loops adc 2 s = Done tt s' tr /\
    runsStarted tr = 2%nat /\
    pumpRunning s' = false /\
    clock s' = clock s + 2 * (1000 * durationSec (cfg s) + 50) /\
    let r1 := u16 (adc SOIL_PIN (clock s)) in
    let r2 := u16 (adc SOIL_PIN (clock s + 1000 * durationSec (cfg s) + 50)) in
    let told := fun line : string =>
      ESerial line ::
      (if clientConnected s
       then [ESetValue LogChr (Text line); ENotify LogChr] else []) in
    let run :=
      [ EDigitalWrite RELAY_PIN (negb (relayActiveLow (cfg s)));
        ESetValue StateChr (Bytes [1; flowPct (cfg s)]); ENotify StateChr ] ++
      told "Pump ON" ++
      [ EDigitalWrite RELAY_PIN (relayActiveLow (cfg s));
        ESetValue StateChr (Bytes [0; flowPct (cfg s)]); ENotify StateChr ] ++
      told "Pump OFF" ++ told "Auto watering completed" in
    exists mid post,
      tr = ESetValue SoilChr (Bytes [lowByte r1; highByte r1]) ::
           ENotify SoilChr :: run ++ mid ++
           ESetValue SoilChr (Bytes [lowByte r2; highByte r2]) ::
           ENotify SoilChr :: run ++ post /\
      relayWrites mid = 0%nat /\ relayWrites post = 0%nat.
Proof.
  intros Hoff Hidle Hdue (_ & _ & _ & _ & Hd) Hlen Hdry1 Hdry2.
  exists (afterLoops adc 2 s), (loopsTrace adc 2 s).
  split; [apply loops_run |].
  rewrite !afterLoops_S, !loopsTrace_S.
  change (afterLoops adc 0 ?x) with x. change (loopsTrace adc 0 ?x) with (@nil Event).
  rewrite app_nil_r, runsStarted_app, !loopTrace_runs, !autoStarts_afterTick.
  (* the first call *)
  assert (Hauto : autoStarts adc s = true).
  { unfold autoStarts, thresholdFires, soilReading. rewrite Hdue, Hoff, Hidle.
    cbn [negb andb]. rewrite andb_true_r. now apply Z.ltb_lt. }
  destruct (beforeSchedule_frame adc s) as (Bc & _).
  assert (Hsched : schedStarts (beforeSchedule adc s) = false).
  { apply schedStarts_scheduleOff. now rewrite Bc. }
  destruct (afterLoop_keeps adc s) as (_ & Kn & Kp & Kc).
  destruct (afterLoop_fields adc s) as (Fc & _).
  pose proof (afterLoop_lastSoilTime adc s) as Kl.
  rewrite Hauto, Hsched in Kp, Kc. rewrite Hdue in Kl.
  rewrite (u32_small (durationSec (cfg s) * 1000)) in Kc by lia.
  (* the second call *)
  destruct (beforeSchedule_frame adc (afterLoop adc s)) as (Bc' & _).
  destruct (afterLoop_keeps adc (afterLoop adc s)) as (_ & _ & Kp' & Kc').
  assert (Hoff' : scheduleOn (cfg (afterLoop adc s)) = false)
    by now rewrite Fc.
  assert (Hsched' :
    schedStarts (beforeSchedule adc (afterLoop adc s)) = false).
  { apply schedStarts_scheduleOff. now rewrite Bc', Fc. }
  assert (Hclock : clock (afterLoop adc s) =
                   clock s + 1000 * durationSec (cfg s) + 50) by lia.
  assert (Hauto' : autoStarts adc (afterLoop adc s) = true).
  { unfold autoStarts, thresholdFires, soilReading, soilDue.
    rewrite Kl, Kp, Fc, Hoff, u32_sub, Hclock.
    replace (clock s + 1000 * durationSec (cfg s) + 50 - clock s)
      with (durationSec (cfg s) * 1000 + 50) by lia.
    rewrite u32_small by lia.
    cbn [negb andb]. rewrite andb_true_r.
    apply andb_true_iff. split; [apply Z.ltb_lt; lia | now apply Z.ltb_lt]. }
  rewrite Hauto' , Hsched' in Kp', Kc'.
  rewrite Fc, (u32_small (durationSec (cfg s) * 1000)) in Kc' by lia.
  split; [now rewrite Hauto, Hsched, Hauto', Hsched' |].
  split; [exact Kp' |].
  split; [rewrite Kc', Hclock; lia |].
  intros r1 r2 told run.
  exists (levelTrace adc (afterSoil adc (afterTick s))),
         (levelTrace adc (afterSoil adc (afterTick (afterLoop adc s)))).
  split; [| split; apply relayWrites_levelTrace].
  rewrite (loopTrace_auto adc s Hauto Hoff).
  rewrite (loopTrace_auto adc (afterLoop adc s) Hauto' Hoff').
  unfold soilReading. rewrite Fc, Kn, Hclock.
  rewrite <- !app_comm_cons, <- app_assoc. reflexivity.
Qed.

Lemma dry_soil_waters_again_witness :
  exists s' tr mid post,
    loops (fun _ _ => 2500) 2 scenarioState = Done tt s' tr /\
    runsStarted tr = 2%nat /\
    tr = ESetValue SoilChr (Bytes [196; 9]) :: ENotify SoilChr ::
         [ EDigitalWrite RELAY_PIN false;
           ESetValue StateChr (Bytes [1; 100]); ENotify StateChr;
           ESerial "Pump ON";
           EDigitalWrite RELAY_PIN true;
           ESetValue StateChr (Bytes [0; 100]); ENotify StateChr;
           ESerial "Pump OFF"; ESerial "Auto watering completed" ] ++ mid ++
         ESetValue SoilChr (Bytes [196; 9]) :: ENotify SoilChr ::
         [ EDigitalWrite RELAY_PIN false;
           ESetValue StateChr (Bytes [1; 100]); ENotify StateChr;
           ESerial "Pump ON";
           EDigitalWrite RELAY_PIN true;
           ESetValue StateChr (Bytes [0; 100]); ENotify StateChr;
           ESerial "Pump OFF"; ESerial "Auto watering completed" ] ++ post /\
    relayWrites mid = 0%nat /\ relayWrites post = 0%nat.
Proof.
  destruct (dry_soil_waters_again (fun _ _ => 2500) scenarioState)
    as (s' & tr & Hrun & Hruns & _ & _ & mid & post & Htr & Hmid & Hpost).
  - reflexivity.
  - reflexivity.
  - reflexivity.
  - unfold representable. simpl. lia.
  - simpl. lia.
  - vm_compute. reflexivity.
  - vm_compute. reflexivity.
  - exists s', tr, mid, post. split; [exact Hrun |]. split; [exact Hruns |].
    split; [exact Htr |]. split; [exact Hmid | exact Hpost].
Defined.
